(** * The RAG document assistant page: session store and request orchestration

    A shallow embedding of [frontend/app/page.tsx], the single client
    component [Home].  The component keeps eight pieces of React state,
    mirrors four of them into one [localStorage] slot, and drives two
    asynchronous handlers ([handleQuery], [handleFactCheck]) against a
    backend.

    The development has three layers:
    - [JS]: the JavaScript values the page manipulates (everything that
      crosses [JSON.parse] is untyped at run time), with truthiness,
      [ToString], member reads and the [??] / [||] operators;
    - [JSON]: a model of the built-in [JSON.stringify] and [JSON.parse];
    - [Page]: the component itself: its state, the two effects and the two
      handlers, each handler split at its [await] into the synchronous
      prefix and the settlement. *)

From Stdlib Require Import String Ascii List ZArith Bool Lia.
From Stdlib Require Import DecimalString DecimalZ DecimalPos.
Import ListNotations.
Open Scope string_scope.

(** ** Completions: a computation returns normally or throws *)

(** Only the [message] of a thrown error is ever observed by the page (both
    [catch] blocks read [error.message] and nothing else). *)
Inductive completion (A : Type) : Type :=
| Normal (a : A)
| Throw (message : string).
Arguments Normal {A} a.
Arguments Throw {A} message.

(** ** JavaScript values *)

Module JS.

(** A number is kept as the exact decimal its text denotes: an integer
    [JNum n], or [JFrac m k], which stands for m / 10^k with k at least one
    and m not a multiple of ten.  The page never computes with a number, it
    only tests one for truthiness or prints it; the engine's rounding of
    numbers to binary64 is not modelled. *)
#[local] Unset Elimination Schemes.
Inductive value : Type :=
| JUndefined
| JNull
| JBool (b : bool)
| JNum (n : Z)
| JFrac (m : Z) (k : nat)
| JStr (s : string)
| JArr (items : list value)
| JObj (fields : list (string * value)).
#[local] Set Elimination Schemes.

(** Induction that reaches inside arrays and objects. *)
Fixpoint value_nested_ind (P : value -> Prop)
    (Hu : P JUndefined) (Hn : P JNull)
    (Hb : forall b, P (JBool b)) (Hz : forall n, P (JNum n))
    (Hf : forall m k, P (JFrac m k))
    (Hs : forall s, P (JStr s))
    (Ha : forall l, Forall P l -> P (JArr l))
    (Ho : forall fs, Forall (fun kv => P (snd kv)) fs -> P (JObj fs))
    (v : value) {struct v} : P v :=
  match v with
  | JUndefined => Hu
  | JNull => Hn
  | JBool b => Hb b
  | JNum n => Hz n
  | JFrac m k => Hf m k
  | JStr s => Hs s
  | JArr l =>
      Ha l ((fix go (l : list value) : Forall P l :=
               match l with
               | [] => Forall_nil P
               | x :: l' =>
                   Forall_cons x (value_nested_ind P Hu Hn Hb Hz Hf Hs Ha Ho x) (go l')
               end) l)
  | JObj fs =>
      Ho fs ((fix go (fs : list (string * value)) : Forall (fun kv => P (snd kv)) fs :=
                match fs with
                | [] => Forall_nil _
                | kv :: fs' =>
                    Forall_cons kv
                      (value_nested_ind P Hu Hn Hb Hz Hf Hs Ha Ho (snd kv)) (go fs')
                end) fs)
  end.

(** [ToBoolean]. *)
Definition truthy (v : value) : bool :=
  match v with
  | JUndefined | JNull => false
  | JBool b => b
  | JNum n => negb (n =? 0)%Z
  | JFrac m _ => negb (m =? 0)%Z
  | JStr s => negb (s =? "")
  | JArr _ | JObj _ => true
  end.

Definition is_object (v : value) : bool :=
  match v with
  | JObj _ => true
  | _ => false
  end.

(** [a || b] on values. *)
Definition or_else (a b : value) : value := if truthy a then a else b.

(** [a ?? b]. *)
Definition nullish (v : value) : bool :=
  match v with
  | JUndefined | JNull => true
  | _ => false
  end.

Definition coalesce (a b : value) : value := if nullish a then b else a.

(** Decimal text of an integer, as [Number.prototype.toString] prints it. *)
Definition string_of_Z (n : Z) : string := NilZero.string_of_int (Z.to_int n).

Fixpoint zeros (n : nat) : string :=
  match n with
  | O => EmptyString
  | S n' => String "0" (zeros n')
  end.

(** Decimal text of m / 10^k, after [Number::toString]: with [n] the
    position of the point among the digits, plain notation when
    -6 < n, exponent notation below. *)
Definition string_of_frac (m : Z) (k : nat) : string :=
  let digits := string_of_Z (Z.abs m) in
  let len := String.length digits in
  let n := (Z.of_nat len - Z.of_nat k)%Z in
  (if (m <? 0)%Z then "-" else "")
  ++ (if (0 <? n)%Z then
        substring 0 (Z.to_nat n) digits ++ "." ++ substring (Z.to_nat n) k digits
      else if (-6 <? n)%Z then
        "0." ++ zeros (Z.to_nat (- n)) ++ digits
      else
        substring 0 1 digits
        ++ (if (len =? 1)%nat then "" else "." ++ substring 1 (len - 1) digits)
        ++ "e-" ++ string_of_Z (1 - n)).

(** [ToString].  An array prints as its elements joined by commas, [null]
    and [undefined] elements printing as nothing; a plain object prints as
    the fixed text of [Object.prototype.toString].  (An object with a
    [toString] member of its own has no text: the conversion throws.  No
    such text is the text of a JSON value, so where the page parses the
    conversion of an object the parse fails either way.) *)
Fixpoint ToString (v : value) : string :=
  match v with
  | JUndefined => "undefined"
  | JNull => "null"
  | JBool true => "true"
  | JBool false => "false"
  | JNum n => string_of_Z n
  | JFrac m k => string_of_frac m k
  | JStr s => s
  | JArr l =>
      String.concat ","
        (map (fun x => if nullish x then "" else ToString x) l)
  | JObj _ => "[object Object]"
  end.

(** The message of the [TypeError] raised by [x.name] when [x] is [null] or
    [undefined] (the wording is the engine's; this is V8's). *)
Definition cannot_read (what name : string) : string :=
  "Cannot read properties of " ++ what ++ " (reading '" ++ name ++ "')".

Fixpoint lookup (name : string) (fs : list (string * value)) : value :=
  match fs with
  | [] => JUndefined
  | (k, x) :: fs' => if k =? name then x else lookup name fs'
  end.

(** The member read [v.name], for the names the page reads: [detail],
    [answer], [result], [verdict], [reason], [evidence], [question],
    [claim], [factResult].  None of them is a property of a string, a
    number, a boolean or an array, own or inherited, so on those the read
    yields [undefined]; on [null] and [undefined] it throws. *)
Definition get (v : value) (name : string) : completion value :=
  match v with
  | JUndefined => Throw (cannot_read "undefined" name)
  | JNull => Throw (cannot_read "null" name)
  | JObj fs => Normal (lookup name fs)
  | _ => Normal JUndefined
  end.

(** The message of [new Error(x)]: empty when [x] is [undefined], else
    [ToString x]. *)
Definition Error_message (x : value) : string :=
  match x with
  | JUndefined => ""
  | _ => ToString x
  end.

(** *** [String.prototype.trim]

    Strings are byte strings holding UTF-8.  The characters [trim] strips
    are the language's white space and line terminators: six of one byte
    (tab, line feed, vertical tab, form feed, carriage return, space), one
    of two bytes (U+00A0) and the three-byte ones (U+1680, U+2000 to
    U+200A, U+2028, U+2029, U+202F, U+205F, U+3000, U+FEFF). *)
Definition is_space (c : ascii) : bool :=
  let n := nat_of_ascii c in
  (((9 <=? n) && (n <=? 13)) || (n =? 32))%nat.

Definition is_space2 (c d : ascii) : bool :=
  ((nat_of_ascii c =? 194) && (nat_of_ascii d =? 160))%nat.

Definition is_space3 (c d e : ascii) : bool :=
  let x := nat_of_ascii c in
  let y := nat_of_ascii d in
  let z := nat_of_ascii e in
  (((x =? 225) && (y =? 154) && (z =? 128))
   || ((x =? 226) && (y =? 128)
       && (((128 <=? z) && (z <=? 138)) || (z =? 168) || (z =? 169) || (z =? 175)))
   || ((x =? 226) && (y =? 129) && (z =? 159))
   || ((x =? 227) && (y =? 128) && (z =? 128))
   || ((x =? 239) && (y =? 187) && (z =? 191)))%nat.

(** Strip from the front the characters that [one], [two] and [three]
    recognise. *)
Fixpoint strip (one : ascii -> bool) (two : ascii -> ascii -> bool)
    (three : ascii -> ascii -> ascii -> bool) (s : string) : string :=
  match s with
  | EmptyString => EmptyString
  | String c r =>
      if one c then strip one two three r
      else
        match r with
        | EmptyString => s
        | String d r1 =>
            if two c d then strip one two three r1
            else
              match r1 with
              | EmptyString => s
              | String e r2 =>
                  if three c d e then strip one two three r2 else s
              end
        end
  end.

Fixpoint rev_onto (s acc : string) : string :=
  match s with
  | EmptyString => acc
  | String c s' => rev_onto s' (String c acc)
  end.

Definition reverse (s : string) : string := rev_onto s EmptyString.

Definition trimStart (s : string) : string := strip is_space is_space2 is_space3 s.

(** The same from the back: the bytes of a character come last first. *)
Definition trimEnd (s : string) : string :=
  reverse (strip is_space (fun d c => is_space2 c d)
                 (fun e d c => is_space3 c d e) (reverse s)).

Definition trim (s : string) : string := trimEnd (trimStart s).

(** [v.trim()] on a value: a method call on a string; on anything else the
    page would be calling a missing method (or reading through [null]). *)
Definition call_trim (what : string) (v : value) : completion string :=
  match v with
  | JStr s => Normal (trim s)
  | JUndefined => Throw (cannot_read "undefined" "trim")
  | JNull => Throw (cannot_read "null" "trim")
  | _ => Throw (what ++ ".trim is not a function")
  end.

End JS.

(** ** The built-in [JSON] object *)

Module JSON.
Import JS.

Definition dquote : ascii := ascii_of_nat 34.
Definition backslash : ascii := ascii_of_nat 92.

(** *** [JSON.stringify] *)

Definition hex_digit (n : nat) : ascii :=
  if (n <? 10)%nat then ascii_of_nat (48 + n) else ascii_of_nat (87 + n).

(** [QuoteJSONString], one character: the quote and the backslash are
    escaped, control characters get their short escape or [\u00xx]. *)
Definition escape_char (c : ascii) : string :=
  let n := nat_of_ascii c in
  if (n =? 34)%nat then String backslash (String dquote EmptyString)
  else if (n =? 92)%nat then String backslash (String backslash EmptyString)
  else if (n =? 8)%nat then String backslash "b"
  else if (n =? 12)%nat then String backslash "f"
  else if (n =? 10)%nat then String backslash "n"
  else if (n =? 13)%nat then String backslash "r"
  else if (n =? 9)%nat then String backslash "t"
  else if (n <? 32)%nat then
    String backslash
      (String "u" (String "0" (String "0"
         (String (hex_digit (n / 16)) (String (hex_digit (n mod 16)) EmptyString)))))
  else String c EmptyString.

Fixpoint escape (s : string) : string :=
  match s with
  | EmptyString => EmptyString
  | String c s' => escape_char c ++ escape s'
  end.

Definition quote (s : string) : string :=
  String dquote (escape s ++ String dquote EmptyString).

(** [SerializeJSONProperty]: [None] stands for the [undefined] it returns on
    [undefined].  Inside an array an [undefined] element prints as [null];
    inside an object a member whose value is [undefined] is left out. *)
Fixpoint serialize (v : value) : option string :=
  match v with
  | JUndefined => None
  | JNull => Some "null"
  | JBool true => Some "true"
  | JBool false => Some "false"
  | JNum n => Some (string_of_Z n)
  | JFrac m k => Some (string_of_frac m k)
  | JStr s => Some (quote s)
  | JArr l =>
      Some ("[" ++ String.concat ","
                     (map (fun x => match serialize x with
                                    | Some t => t
                                    | None => "null"
                                    end) l) ++ "]")
  | JObj fs =>
      Some ("{" ++ String.concat ","
                     (flat_map (fun kv => match serialize (snd kv) with
                                          | Some t => [quote (fst kv) ++ ":" ++ t]
                                          | None => []
                                          end) fs) ++ "}")
  end.

(** [JSON.stringify(v)], a value: a string, or [undefined]. *)
Definition stringify (v : value) : value :=
  match serialize v with
  | Some t => JStr t
  | None => JUndefined
  end.

(** *** [JSON.parse]

    A recursive-descent reader of JSON text.  A [\uXXXX] escape is decoded
    one code unit at a time into its UTF-8 bytes. *)

Definition is_ws (c : ascii) : bool :=
  let n := nat_of_ascii c in
  ((n =? 32) || (n =? 9) || (n =? 10) || (n =? 13))%nat.

Fixpoint skip_ws (s : string) : string :=
  match s with
  | String c s' => if is_ws c then skip_ws s' else s
  | EmptyString => EmptyString
  end.

Definition hex_value (c : ascii) : option nat :=
  let n := nat_of_ascii c in
  if ((48 <=? n) && (n <=? 57))%nat then Some (n - 48)
  else if ((97 <=? n) && (n <=? 102))%nat then Some (n - 87)
  else if ((65 <=? n) && (n <=? 70))%nat then Some (n - 55)
  else None.

Definition hex4 (a b c d : ascii) : option nat :=
  match hex_value a, hex_value b, hex_value c, hex_value d with
  | Some x, Some y, Some z, Some w => Some (((x * 16 + y) * 16 + z) * 16 + w)
  | _, _, _, _ => None
  end.

Definition utf8 (n : nat) : string :=
  if (n <? 128)%nat then String (ascii_of_nat n) EmptyString
  else if (n <? 2048)%nat then
    String (ascii_of_nat (192 + n / 64))
      (String (ascii_of_nat (128 + n mod 64)) EmptyString)
  else
    String (ascii_of_nat (224 + n / 4096))
      (String (ascii_of_nat (128 + (n / 64) mod 64))
         (String (ascii_of_nat (128 + n mod 64)) EmptyString)).

Definition unescape (e : ascii) : option ascii :=
  let n := nat_of_ascii e in
  if (n =? 34)%nat then Some dquote
  else if (n =? 92)%nat then Some backslash
  else if (n =? 47)%nat then Some "/"%char
  else if (n =? 98)%nat then Some (ascii_of_nat 8)
  else if (n =? 102)%nat then Some (ascii_of_nat 12)
  else if (n =? 110)%nat then Some (ascii_of_nat 10)
  else if (n =? 114)%nat then Some (ascii_of_nat 13)
  else if (n =? 116)%nat then Some (ascii_of_nat 9)
  else None.

(** The characters of a string literal, read after its opening quote up to
    and including the closing one. *)
Fixpoint parse_chars (s : string) : option (string * string) :=
  match s with
  | EmptyString => None
  | String c r =>
      if (c =? dquote)%char then Some (EmptyString, r)
      else if (c =? backslash)%char then
        match r with
        | String e r' =>
            if (e =? "u")%char then
              match r' with
              | String h1 (String h2 (String h3 (String h4 r''))) =>
                  match hex4 h1 h2 h3 h4 with
                  | Some n =>
                      match parse_chars r'' with
                      | Some (t, rest) => Some (utf8 n ++ t, rest)
                      | None => None
                      end
                  | None => None
                  end
              | _ => None
              end
            else
              match unescape e with
              | Some ch =>
                  match parse_chars r' with
                  | Some (t, rest) => Some (String ch t, rest)
                  | None => None
                  end
              | None => None
              end
        | EmptyString => None
        end
      else if (nat_of_ascii c <? 32)%nat then None
      else
        match parse_chars r with
        | Some (t, rest) => Some (String c t, rest)
        | None => None
        end
  end.

Definition starts_with (c : ascii) (s : string) : bool :=
  match s with
  | String d _ => (d =? c)%char
  | EmptyString => false
  end.

Definition tail (s : string) : string :=
  match s with
  | String _ s' => s'
  | EmptyString => EmptyString
  end.

Definition is_digit (c : ascii) : bool :=
  let n := nat_of_ascii c in
  ((48 <=? n) && (n <=? 57))%nat.

Fixpoint span_digits (s : string) : string * string :=
  match s with
  | String c r =>
      if is_digit c then let (a, b) := span_digits r in (String c a, b)
      else (EmptyString, s)
  | EmptyString => (EmptyString, EmptyString)
  end.

(** The number a run of digits denotes. *)
Definition digits_value (ds : string) : Z :=
  match NilEmpty.uint_of_string ds with
  | Some d => Z.of_uint d
  | None => 0%Z
  end.

(** m / 10^k as a value: an integer when the division is exact. *)
Fixpoint scaled (m : Z) (k : nat) : value :=
  match k with
  | O => JNum m
  | S k' => if (m mod 10 =? 0)%Z then scaled (m / 10) k' else JFrac m k
  end.

(** m * 10^e as a value. *)
Definition decimal (m e : Z) : value :=
  if (0 <=? e)%Z then JNum (m * 10 ^ e) else scaled m (Z.to_nat (- e)).

(** The optional fraction of a number literal: a point and one digit or
    more. *)
Definition fraction (s : string) : option (string * string) :=
  if starts_with "." s then
    let (fp, r) := span_digits (tail s) in
    if fp =? "" then None else Some (fp, r)
  else Some (EmptyString, s).

(** The optional exponent: [e] or [E], a sign or none, one digit or more. *)
Definition exponent (s : string) : option (Z * string) :=
  if starts_with "e" s || starts_with "E" s then
    let s1 := tail s in
    let negative := starts_with "-" s1 in
    let s2 := if negative || starts_with "+" s1 then tail s1 else s1 in
    let (ds, r) := span_digits s2 in
    if ds =? "" then None
    else Some (if negative then (- digits_value ds)%Z else digits_value ds, r)
  else Some (0%Z, s).

(** A number literal: a minus sign or none, the integer part (the canonical
    decimal text of its value: no leading zero), a fraction or none, an
    exponent or none. *)
Definition parse_number (s : string) : option (value * string) :=
  let negative := starts_with "-" s in
  let (ip, s2) := span_digits (if negative then tail s else s) in
  if string_of_Z (digits_value ip) =? ip then
    match fraction s2 with
    | Some (fp, s3) =>
        match exponent s3 with
        | Some (ex, s4) =>
            let m := digits_value (ip ++ fp) in
            Some (decimal (if negative then (- m)%Z else m)
                          (ex - Z.of_nat (String.length fp)),
                  s4)
        | None => None
        end
    | None => None
    end
  else None.

(** The rest of a literal name ([null], [true], [false]). *)
Fixpoint expect (word : string) (v : value) (s : string) : option (value * string) :=
  match word with
  | EmptyString => Some (v, s)
  | String c word' =>
      match s with
      | String d s' => if (c =? d)%char then expect word' v s' else None
      | EmptyString => None
      end
  end.

(** A repeated member name keeps its first position and its last value. *)
Fixpoint obj_set (k : string) (v : value) (fs : list (string * value)) :=
  match fs with
  | [] => [(k, v)]
  | (k', v') :: fs' =>
      if k' =? k then (k, v) :: fs' else (k', v') :: obj_set k v fs'
  end.

Definition build_obj (ms : list (string * value)) : list (string * value) :=
  fold_left (fun acc kv => obj_set (fst kv) (snd kv) acc) ms [].

Fixpoint parse_value (fuel : nat) (s : string) {struct fuel} : option (value * string) :=
  match fuel with
  | O => None
  | S fuel' =>
      match skip_ws s with
      | EmptyString => None
      | String c r =>
          if (c =? dquote)%char then
            match parse_chars r with
            | Some (t, rest) => Some (JStr t, rest)
            | None => None
            end
          else if (c =? "n")%char then expect "ull" JNull r
          else if (c =? "t")%char then expect "rue" (JBool true) r
          else if (c =? "f")%char then expect "alse" (JBool false) r
          else if (c =? "[")%char then
            if starts_with "]" (skip_ws r) then Some (JArr [], tail (skip_ws r))
            else
              match parse_elems fuel' r with
              | Some (vs, rest) => Some (JArr vs, rest)
              | None => None
              end
          else if (c =? "{")%char then
            if starts_with "}" (skip_ws r) then Some (JObj [], tail (skip_ws r))
            else
              match parse_members fuel' r with
              | Some (ms, rest) => Some (JObj (build_obj ms), rest)
              | None => None
              end
          else parse_number (String c r)
      end
  end

(** One or more elements, up to and including the closing bracket. *)
with parse_elems (fuel : nat) (s : string) {struct fuel} : option (list value * string) :=
  match fuel with
  | O => None
  | S fuel' =>
      match parse_value fuel' s with
      | Some (v, r) =>
          if starts_with "," (skip_ws r) then
            match parse_elems fuel' (tail (skip_ws r)) with
            | Some (vs, rest) => Some (v :: vs, rest)
            | None => None
            end
          else if starts_with "]" (skip_ws r) then Some ([v], tail (skip_ws r))
          else None
      | None => None
      end
  end

(** One or more members, up to and including the closing brace. *)
with parse_members (fuel : nat) (s : string) {struct fuel}
  : option (list (string * value) * string) :=
  match fuel with
  | O => None
  | S fuel' =>
      if starts_with dquote (skip_ws s) then
        match parse_chars (tail (skip_ws s)) with
        | Some (k, r1) =>
            if starts_with ":" (skip_ws r1) then
              match parse_value fuel' (tail (skip_ws r1)) with
              | Some (v, r3) =>
                  if starts_with "," (skip_ws r3) then
                    match parse_members fuel' (tail (skip_ws r3)) with
                    | Some (ms, rest) => Some ((k, v) :: ms, rest)
                    | None => None
                    end
                  else if starts_with "}" (skip_ws r3)
                  then Some ([(k, v)], tail (skip_ws r3))
                  else None
              | None => None
              end
            else None
        | None => None
        end
      else None
  end.

(** The message of the [SyntaxError].  The engine words it after the
    offending token; the model keeps one wording. *)
Definition syntax_error : string := "Unexpected token in JSON".

(** [JSON.parse(text)]. *)
Definition parse (text : string) : completion value :=
  match parse_value (2 * String.length text + 2) text with
  | Some (v, rest) =>
      if skip_ws rest =? "" then Normal v else Throw syntax_error
  | None => Throw syntax_error
  end.

(** *** The values that have a JSON text, and the text *)

Fixpoint distinct (ks : list string) : bool :=
  match ks with
  | [] => true
  | k :: ks' => negb (existsb (String.eqb k) ks') && distinct ks'
  end.

(** The values read back below: no [undefined] anywhere, whole numbers
    only, no member name twice in an object. *)
Fixpoint json_ok (v : value) : bool :=
  match v with
  | JUndefined => false
  | JFrac _ _ => false
  | JArr l => forallb json_ok l
  | JObj fs => forallb (fun kv => json_ok (snd kv)) fs && distinct (map fst fs)
  | _ => true
  end.

(** The text of a value, [null] standing for what has none. *)
Definition text_of (v : value) : string :=
  match serialize v with
  | Some t => t
  | None => "null"
  end.

Definition member_text (kv : string * value) : string :=
  quote (fst kv) ++ ":" ++ text_of (snd kv).

(** *** Measures used to show that [parse] reads a text back *)

(** Fuel that [parse_value] needs to read back the text of a value. *)
Fixpoint depth (v : value) : nat :=
  match v with
  | JArr l => S (fold_right (fun x n => S (Nat.max (depth x) n)) 0 l)
  | JObj fs => S (fold_right (fun kv n => S (Nat.max (depth (snd kv)) n)) 0 fs)
  | _ => 1
  end.

Definition elems_depth (l : list value) : nat :=
  fold_right (fun x n => S (Nat.max (depth x) n)) 0 l.

Definition members_depth (fs : list (string * value)) : nat :=
  fold_right (fun kv n => S (Nat.max (depth (snd kv)) n)) 0 fs.

(** What follows a number literal and is no part of it. *)
Definition ends_number (s : string) : bool :=
  match s with
  | String c _ =>
      negb (is_digit c || (c =? ".")%char || (c =? "e")%char || (c =? "E")%char)
  | EmptyString => true
  end.

Fixpoint all_digits (s : string) : bool :=
  match s with
  | EmptyString => true
  | String c s' => is_digit c && all_digits s'
  end.

(** *** Values that the model serializes to the letter

    The engine lists an object's members with index-like names first and in
    numeric order, holds numbers in binary64 and strings in UTF-16 code
    units; the model keeps members in the order of the text, numbers as
    exact decimals and strings as bytes.  On the values below nothing of
    this shows in the serialization: strings and member names of ASCII
    characters, whole numbers of magnitude at most 2^53, no member name
    made of digits only, no member name twice. *)
Fixpoint ascii_only (s : string) : bool :=
  match s with
  | EmptyString => true
  | String c s' => (nat_of_ascii c <? 128)%nat && ascii_only s'
  end.

Fixpoint plain (v : value) : bool :=
  match v with
  | JUndefined => false
  | JNull => true
  | JBool _ => true
  | JNum n => (Z.abs n <=? 2 ^ 53)%Z
  | JFrac _ _ => false
  | JStr s => ascii_only s
  | JArr l => forallb plain l
  | JObj fs =>
      forallb (fun kv => ascii_only (fst kv) && negb (all_digits (fst kv))
                         && plain (snd kv)) fs
      && distinct (map fst fs)
  end.

Definition token_head (t : string) : bool :=
  match t with
  | String c _ => negb (is_ws c) && negb (c =? "]")%char
  | EmptyString => false
  end.

(** [v] reads back from its text, whatever follows the text (short of what
    would continue a number) and with any fuel from [depth v] up. *)
Definition reads_back (v : value) : Prop :=
  json_ok v = true ->
  forall (fuel : nat) (rest : string),
    depth v <= fuel -> ends_number rest = true ->
    parse_value fuel (text_of v ++ rest) = Some (v, rest).

End JSON.

(** ** The page component *)

Module Page.
Import JS.

Definition STORAGE_KEY : string := "rag-ui-state-v1".

(** *** The component's state: the eight [useState] cells

    The four persisted cells hold values: what [JSON.parse] returns is cast,
    not checked, so at run time they hold whatever the response or the
    stored text held.  [status] is only ever set to a string; [factError]
    to a string or [null]. *)
Record State : Type := mkState {
  question : value;
  answer : value;
  loading : bool;
  status : string;
  claim : value;
  factResult : value;
  factLoading : bool;
  factError : option string
}.

(** The values of the first render. *)
Definition initial_state : State :=
  {| question := JStr ""; answer := JStr ""; loading := false; status := "";
     claim := JStr ""; factResult := JNull; factLoading := false;
     factError := None |}.

(** *** Actions: code that sets state cells and may throw

    Every setter call of the page passes a value (never an updater
    function), so a run of setter calls is the composition of the
    assignments, and what a [catch] sees is the state as the [try] block
    left it. *)
Definition action (A : Type) : Type := State -> State * completion A.

Definition ret {A : Type} (a : A) : action A := fun st => (st, Normal a).

Definition throw {A : Type} (message : string) : action A :=
  fun st => (st, Throw message).

Definition bind {A B : Type} (m : action A) (k : A -> action B) : action B :=
  fun st =>
    match m st with
    | (st', Normal a) => k a st'
    | (st', Throw message) => (st', Throw message)
    end.

Definition lift {A : Type} (c : completion A) : action A := fun st => (st, c).

Definition read {A : Type} (cell : State -> A) : action A :=
  fun st => (st, Normal (cell st)).

Notation "x <- m ;; k" := (bind m (fun x => k))
  (at level 61, m at next level, right associativity).
Notation "m ;; k" := (bind m (fun _ => k))
  (at level 61, right associativity).

(** [try { body } catch (error) { handler(error.message) }]. *)
Definition try_catch (body : action unit) (handler : string -> action unit) : action unit :=
  fun st =>
    match body st with
    | (st', Normal tt) => (st', Normal tt)
    | (st', Throw message) => handler message st'
    end.

(** [try { body } finally { cleanup }]: the cleanup runs on both exits, and
    an exception of the body goes on after it. *)
Definition try_finally (body : action unit) (cleanup : action unit) : action unit :=
  fun st =>
    match body st with
    | (st', Normal tt) => cleanup st'
    | (st', Throw message) =>
        match cleanup st' with
        | (st'', Normal tt) => (st'', Throw message)
        | (st'', Throw message') => (st'', Throw message')
        end
    end.

Definition setQuestion (v : value) : action unit := fun st =>
  (mkState v (answer st) (loading st) (status st)
           (claim st) (factResult st) (factLoading st) (factError st), Normal tt).
Definition setAnswer (v : value) : action unit := fun st =>
  (mkState (question st) v (loading st) (status st)
           (claim st) (factResult st) (factLoading st) (factError st), Normal tt).
Definition setLoading (b : bool) : action unit := fun st =>
  (mkState (question st) (answer st) b (status st)
           (claim st) (factResult st) (factLoading st) (factError st), Normal tt).
Definition setStatus (s : string) : action unit := fun st =>
  (mkState (question st) (answer st) (loading st) s
           (claim st) (factResult st) (factLoading st) (factError st), Normal tt).
Definition setClaim (v : value) : action unit := fun st =>
  (mkState (question st) (answer st) (loading st) (status st)
           v (factResult st) (factLoading st) (factError st), Normal tt).
Definition setFactResult (v : value) : action unit := fun st =>
  (mkState (question st) (answer st) (loading st) (status st)
           (claim st) v (factLoading st) (factError st), Normal tt).
Definition setFactLoading (b : bool) : action unit := fun st =>
  (mkState (question st) (answer st) (loading st) (status st)
           (claim st) (factResult st) b (factError st), Normal tt).
Definition setFactError (e : option string) : action unit := fun st =>
  (mkState (question st) (answer st) (loading st) (status st)
           (claim st) (factResult st) (factLoading st) e, Normal tt).

(** *** [window.localStorage] *)

Definition Storage : Type := string -> option string.

Definition getItem (key : string) (ls : Storage) : option string := ls key.

Definition setItem (key text : string) (ls : Storage) : Storage :=
  fun k => if k =? key then Some text else ls k.

(** *** The load effect (runs once, on mount) *)

Definition hydrate (ls : Storage) : action unit :=
  try_catch
    (match getItem STORAGE_KEY ls with
     | None => ret tt
     | Some raw =>
         if raw =? "" then ret tt
         else
           saved <- lift (JSON.parse raw) ;;
           q <- lift (get saved "question") ;;
           setQuestion (or_else q (JStr "")) ;;
           a <- lift (get saved "answer") ;;
           setAnswer (or_else a (JStr "")) ;;
           c <- lift (get saved "claim") ;;
           setClaim (or_else c (JStr "")) ;;
           f <- lift (get saved "factResult") ;;
           setFactResult (or_else f JNull)
     end)
    (fun _ => ret tt).

(** A slot the load effect gets nothing from: no item, or a text that is
    not JSON (the empty text included), or JSON that is not an object. *)
Definition unreadable (slot : option string) : bool :=
  match slot with
  | None => true
  | Some raw =>
      match JSON.parse raw with
      | Throw _ => true
      | Normal v => negb (is_object v)
      end
  end.

(** *** The persist effect (runs after a render that changed a tracked cell) *)

Definition stateToSave (st : State) : value :=
  JObj [("question", question st); ("answer", answer st);
        ("claim", claim st); ("factResult", factResult st)].

Definition persist (st : State) (ls : Storage) : Storage :=
  setItem STORAGE_KEY (ToString (JSON.stringify (stateToSave st))) ls.

(** *** The page with its storage

    A piece of handler code runs to its end, the component renders, and the
    persist effect runs.  (The effect is skipped when no tracked cell
    changed; the slot then already holds the text it would write, so
    running it every time gives the same storage.)  This is the page as
    long as its renders complete: a render that throws is not committed
    and its effects do not run, so the write is the page's when the new
    state renders ([View.renders]). *)
Record World : Type := mkWorld { ui : State; store : Storage }.

Definition dispatch {A : Type} (a : action A) (w : World) : World * completion A :=
  let (st', r) := a (ui w) in
  (mkWorld st' (persist st' (store w)), r).

(** Mounting: the first render shows [initial_state]; the load effect reads
    the slot, then the persist effect writes the first render's cells; the
    cells set by the load effect are rendered and persisted next.  The
    last write is the page's when the loaded cells render
    ([View.renders]); when they do not, the slot keeps the first write. *)
Definition mount (ls : Storage) : World :=
  let st1 := fst (hydrate ls initial_state) in
  mkWorld st1 (persist st1 (persist initial_state ls)).

(** *** The backend, as the handlers see it *)

Record Request : Type := mkRequest { url : string; body : string }.

(** What [await fetch(...)] produces: a rejection, or a response with its
    [ok] flag and the text that [res.json()] will read. *)
Inductive fetch_result : Type :=
| Rejected (message : string)
| Responded (ok : bool) (text : string).

Record Response : Type := mkResponse { res_ok : bool; res_text : string }.

Definition await_fetch (r : fetch_result) : completion Response :=
  match r with
  | Rejected message => Throw message
  | Responded ok text => Normal (mkResponse ok text)
  end.

Definition res_json (res : Response) : completion value := JSON.parse (res_text res).

(** *** [handleQuery]

    [handleQuery_begin] is the handler up to the call of [fetch]; it yields
    the request, or nothing when the guard returns early.
    [handleQuery_settle] is the rest, run when the fetch has settled. *)

Definition query_prefix : string := "❌ Query failed: ".
Definition no_answer : string := "No answer returned.".

Definition handleQuery_begin : action (option Request) :=
  q <- read question ;;
  t <- lift (call_trim "question" q) ;;
  if t =? "" then ret None
  else
    setLoading true ;;
    setAnswer (JStr "") ;;
    setStatus "" ;;
    ret (Some (mkRequest "http://localhost:8000/query"
                 (ToString (JSON.stringify (JObj [("question", q)]))))).

Definition handleQuery_settle (r : fetch_result) : action unit :=
  try_catch
    (res <- lift (await_fetch r) ;;
     data <- lift (res_json res) ;;
     (if negb (res_ok res) then
        d <- lift (get data "detail") ;;
        throw (Error_message (or_else d (JSON.stringify data)))
      else ret tt) ;;
     a <- lift (get data "answer") ;;
     setAnswer (coalesce a (JStr no_answer)))
    (fun message => setStatus (query_prefix ++ message)) ;;
  setLoading false.

(** *** [handleFactCheck] *)

Definition fact_prefix : string := "❌ Fact check failed: ".

Definition handleFactCheck_begin : action (option Request) :=
  c <- read claim ;;
  t <- lift (call_trim "claim" c) ;;
  if t =? "" then ret None
  else
    setFactLoading true ;;
    setFactError None ;;
    setFactResult JNull ;;
    ret (Some (mkRequest "http://localhost:8000/fact_check"
                 (ToString (JSON.stringify
                    (JObj [("claim", c); ("namespace", JStr "documents")]))))).

Definition handleFactCheck_settle (r : fetch_result) : action unit :=
  try_finally
    (try_catch
       (res <- lift (await_fetch r) ;;
        data <- lift (res_json res) ;;
        (if negb (res_ok res) then
           d <- lift (get data "detail") ;;
           throw (Error_message (or_else d (JSON.stringify data)))
         else ret tt) ;;
        result <- lift (get data "result") ;;
        parsed <- lift (JSON.parse (ToString result)) ;;
        verdict <- lift (get parsed "verdict") ;;
        reason <- lift (get parsed "reason") ;;
        evidence <- lift (get parsed "evidence") ;;
        setFactResult (JObj [("verdict", verdict); ("reason", reason);
                             ("evidence", or_else evidence (JArr []))]))
       (fun message => setFactError (Some (fact_prefix ++ message))))
    (setFactLoading false).

(** *** [handleClaimChange] and the question box's [onChange] *)

Definition handleClaimChange (text : string) : action unit := setClaim (JStr text).
Definition handleQuestionChange (text : string) : action unit := setQuestion (JStr text).

(** *** The class of the verdict badge (the nested conditional in the JSX) *)

Definition positive_class : string :=
  "rounded-full bg-green-900/40 px-3 py-1 text-xs font-semibold text-green-300".
Definition negative_class : string :=
  "rounded-full bg-red-900/40 px-3 py-1 text-xs font-semibold text-red-300".
Definition neutral_class : string :=
  "rounded-full bg-yellow-900/40 px-3 py-1 text-xs font-semibold text-yellow-300".

(** [v === 'text']. *)
Definition strict_eq_string (v : value) (text : string) : bool :=
  match v with
  | JStr s => s =? text
  | _ => false
  end.

Definition verdict_className (verdict : value) : string :=
  if strict_eq_string verdict "SUPPORTED" then positive_class
  else if strict_eq_string verdict "REFUTED" then negative_class
  else neutral_class.

(** *** A whole call

    The button is pressed, the request goes out, and the fetch settles with
    [r], nothing else happening to the page in between. *)
Definition call_query (r : fetch_result) (w : World) : World :=
  match dispatch handleQuery_begin w with
  | (w1, Normal (Some _)) => fst (dispatch (handleQuery_settle r) w1)
  | (w1, _) => w1
  end.

Definition call_factCheck (r : fetch_result) (w : World) : World :=
  match dispatch handleFactCheck_begin w with
  | (w1, Normal (Some _)) => fst (dispatch (handleFactCheck_settle r) w1)
  | (w1, _) => w1
  end.

(** What the persist effect leaves in the slot for the cells [st]. *)
Definition slot_text (st : State) : string :=
  ToString (JSON.stringify (stateToSave st)).

(** *** What the [try] block of each handler computes

    Each [try] block sets one cell, as its last statement; so the block is a
    function from the fetch result to the value it will set or the message
    it throws.  [handleQuery_settle_eq] and [handleFactCheck_settle_eq]
    below prove the handlers equal to these readings. *)

Definition http_error (data : value) : completion value :=
  match get data "detail" with
  | Normal d => Throw (Error_message (or_else d (JSON.stringify data)))
  | Throw message => Throw message
  end.

Definition query_attempt (r : fetch_result) : completion value :=
  match await_fetch r with
  | Throw message => Throw message
  | Normal res =>
      match res_json res with
      | Throw message => Throw message
      | Normal data =>
          if negb (res_ok res) then http_error data
          else
            match get data "answer" with
            | Normal a => Normal (coalesce a (JStr no_answer))
            | Throw message => Throw message
            end
      end
  end.

Definition fact_of (parsed : value) : completion value :=
  match get parsed "verdict", get parsed "reason", get parsed "evidence" with
  | Normal verdict, Normal reason, Normal evidence =>
      Normal (JObj [("verdict", verdict); ("reason", reason);
                    ("evidence", or_else evidence (JArr []))])
  | Throw message, _, _ => Throw message
  | _, Throw message, _ => Throw message
  | _, _, Throw message => Throw message
  end.

Definition fact_attempt (r : fetch_result) : completion value :=
  match await_fetch r with
  | Throw message => Throw message
  | Normal res =>
      match res_json res with
      | Throw message => Throw message
      | Normal data =>
          if negb (res_ok res) then http_error data
          else
            match get data "result" with
            | Throw message => Throw message
            | Normal result =>
                match JSON.parse (ToString result) with
                | Throw message => Throw message
                | Normal parsed => fact_of parsed
                end
            end
      end
  end.

(** *** The kinds of failing call *)

(** A query fails by a network error, a non-2xx status, or a body that is
    not JSON. *)
Inductive query_failure : fetch_result -> Prop :=
| query_network_error (message : string) :
    query_failure (Rejected message)
| query_bad_status (text : string) :
    query_failure (Responded false text)
| query_bad_body (ok : bool) (text message : string) :
    JSON.parse text = Throw message ->
    query_failure (Responded ok text).

(** A fact check fails in the same three ways, or at the second parse. *)
Inductive fact_failure : fetch_result -> Prop :=
| fact_network_error (message : string) :
    fact_failure (Rejected message)
| fact_bad_status (text : string) :
    fact_failure (Responded false text)
| fact_bad_body (ok : bool) (text message : string) :
    JSON.parse text = Throw message ->
    fact_failure (Responded ok text)
| fact_bad_result (text : string) (data result : value) (message : string) :
    JSON.parse text = Normal data ->
    get data "result" = Normal result ->
    JSON.parse (ToString result) = Throw message ->
    fact_failure (Responded true text).

(** *** Blank input *)

(** A string of white space only (the empty one included). *)
Fixpoint blank (s : string) : bool :=
  match s with
  | EmptyString => true
  | String c r =>
      if is_space c then blank r
      else
        match r with
        | EmptyString => false
        | String d r1 =>
            if is_space2 c d then blank r1
            else
              match r1 with
              | EmptyString => false
              | String e r2 => is_space3 c d e && blank r2
              end
        end
  end.

End Page.

(** ** The persisted state as the page's types declare it *)

Module Saved.
Import JS.

Record FactResult : Type := mkFactResult {
  verdict : string;
  reason : string;
  evidence : list string
}.

Record PersistedState : Type := mkPersistedState {
  question : string;
  answer : string;
  claim : string;
  factResult : option FactResult
}.

Definition value_of_fact (f : FactResult) : value :=
  JObj [("verdict", JStr (verdict f)); ("reason", JStr (reason f));
        ("evidence", JArr (map JStr (evidence f)))].

Definition value_of_factResult (f : option FactResult) : value :=
  match f with
  | Some f => value_of_fact f
  | None => JNull
  end.

(** A page state whose persisted cells hold [p]; the other cells are
    those of [st]. *)
Definition install (p : PersistedState) (st : Page.State) : Page.State :=
  Page.mkState (JStr (question p)) (JStr (answer p))
               (Page.loading st) (Page.status st)
               (JStr (claim p)) (value_of_factResult (factResult p))
               (Page.factLoading st) (Page.factError st).

Definition is_string (v : value) : bool :=
  match v with JStr _ => true | _ => false end.

Definition is_string_or_absent (v : value) : bool :=
  match v with JStr _ | JUndefined => true | _ => false end.

(** The shape of a stored [FactResult]. *)
Definition fact_shape (v : value) : bool :=
  match v with
  | JObj fs =>
      is_string (lookup "verdict" fs) && is_string (lookup "reason" fs)
      && match lookup "evidence" fs with
         | JArr l => forallb is_string l
         | JUndefined => true
         | _ => false
         end
  | _ => false
  end.

(** The shape of a stored session: an object whose [question], [answer]
    and [claim] are strings where present and whose [factResult] is a
    [FactResult], [null] or not there. *)
Definition session_shape (v : value) : bool :=
  match v with
  | JObj fs =>
      is_string_or_absent (lookup "question" fs)
      && is_string_or_absent (lookup "answer" fs)
      && is_string_or_absent (lookup "claim" fs)
      && match lookup "factResult" fs with
         | JNull | JUndefined => true
         | f => fact_shape f
         end
  | _ => false
  end.

(** The stored text decodes as a session. *)
Definition decodes_as_session (raw : string) : bool :=
  match JSON.parse raw with
  | Normal v => session_shape v
  | Throw _ => false
  end.

End Saved.

(** ** Sample data: the scenarios of the specification *)

Module Samples.
Import JS Page.

Definition no_storage : Storage := fun _ => None.

(** The text a backend sends for the JSON value [v]. *)
Definition body_of (v : value) : string := ToString (JSON.stringify v).

Definition supported : value :=
  JObj [("verdict", JStr "SUPPORTED"); ("reason", JStr "Confirmed by doc X");
        ("evidence", JArr [JStr "doc X, p.2"])].

(** A page that shows an earlier answer and an earlier verdict. *)
Definition prior : World :=
  mkWorld
    (mkState (JStr "What is LangChain?") (JStr "X") false ""
             (JStr "Water boils at 100C at sea level.") supported false None)
    no_storage.

(** The same page with blank inputs. *)
Definition idle : State :=
  mkState (JStr "   ") (JStr "X") false "" (JStr "   ") supported false None.

Definition unreachable : fetch_result := Rejected "Failed to fetch".

Definition index_unavailable : value := JObj [("detail", JStr "index unavailable")].

Definition answer_X : fetch_result :=
  Responded true (body_of (JObj [("answer", JStr "X2")])).

Definition supported_reply : fetch_result :=
  Responded true (body_of (JObj [("result", JSON.stringify supported)])).

(** A stored text that is JSON but no session: its [question] is a number. *)
Definition odd_text : string := body_of (JObj [("question", JNum 42)]).

Definition corrupt : Storage := setItem STORAGE_KEY "{oops" no_storage.

Definition saved_session : Saved.PersistedState :=
  Saved.mkPersistedState "What is LangChain?" "X"
    "Water boils at 100C at sea level."
    (Some (Saved.mkFactResult "SUPPORTED" "Confirmed by doc X" ["doc X, p.2"])).

End Samples.

(** ** What the render computes from the state *)

Module View.
Import JS Page.

(** [disabled={!question.trim() || loading}] on the query button; the
    render throws when [question] has no [trim]. *)
Definition query_button_disabled (st : State) : completion bool :=
  match call_trim "question" (question st) with
  | Normal t => Normal ((t =? "") || loading st)
  | Throw message => Throw message
  end.

(** [disabled={!claim.trim() || factLoading}] on the fact-check button. *)
Definition fact_button_disabled (st : State) : completion bool :=
  match call_trim "claim" (claim st) with
  | Normal t => Normal ((t =? "") || factLoading st)
  | Throw message => Throw message
  end.

(** [disabled={loading}] and [disabled={factLoading}] on the two boxes. *)
Definition question_box_disabled (st : State) : bool := loading st.
Definition claim_box_disabled (st : State) : bool := factLoading st.

(** [{status && <div>...{status}</div>}]: the banner and its text. *)
Definition status_banner (st : State) : option string :=
  if status st =? "" then None else Some (status st).

(** [{answer && (...)}]: whether the answer panel is rendered. *)
Definition answer_panel (st : State) : bool := truthy (answer st).

(** [{factError && <div>...{factError}</div>}]. *)
Definition fact_error_banner (st : State) : option string :=
  match factError st with
  | Some text => if text =? "" then None else Some text
  | None => None
  end.

(** [{factResult && (...)}]: whether the verdict panel is rendered. *)
Definition fact_panel (st : State) : bool := truthy (factResult st).

(** *** States whose render completes

    The guards above say what the render sets out to show.  The render can
    also throw: at [question.trim()] and [claim.trim()] when an input is no
    string, at a child [{answer}], [{factResult.verdict}],
    [{factResult.reason}] or [{ev}] that is a plain object (React takes
    text, numbers, the values it skips and arrays of these as children, and
    refuses an object), and in the verdict panel at
    [factResult.evidence.length] and [factResult.evidence.map].  A render
    that throws is not committed: the page is taken down and the persist
    effect does not run.

    [renders] is a condition under which none of this happens.  It is
    sufficient, not exact: it asks for [evidence] to be an array, although
    some other values pass the panel too. *)
Fixpoint valid_child (v : value) : bool :=
  match v with
  | JObj _ => false
  | JArr l => forallb valid_child l
  | _ => true
  end.

Definition fact_renders (f : value) : bool :=
  match f with
  | JObj fs =>
      valid_child (lookup "verdict" fs) && valid_child (lookup "reason" fs)
      && match lookup "evidence" fs with
         | JArr l => forallb valid_child l
         | _ => false
         end
  | _ => negb (truthy f)
  end.

Definition renders (st : State) : bool :=
  Saved.is_string (question st) && Saved.is_string (claim st)
  && valid_child (answer st) && fact_renders (factResult st).

End View.

(** ** The page as it runs: events *)

Module Session.
Import JS Page View.

(** What can happen to a mounted page: typing in either box, pressing
    either button, and a fetch of either handler settling.  A disabled box
    takes no input and a disabled button no click.  A settlement is let in
    at any time, also when no request is out, and events go on being
    handled after a state the page cannot show ([renders]), where the page
    itself stops.  The runs below so include every run of the page: what
    holds of the cells in all of them holds in every run of the page, and
    the storage of a run is the page's as long as the states on the way
    render. *)
Inductive event : Type :=
| TypeQuestion (text : string)
| TypeClaim (text : string)
| ClickQuery
| QuerySettled (r : fetch_result)
| ClickFactCheck
| FactCheckSettled (r : fetch_result).

Definition handle (e : event) (w : World) : World :=
  match e with
  | TypeQuestion text =>
      if question_box_disabled (ui w) then w
      else fst (dispatch (handleQuestionChange text) w)
  | TypeClaim text =>
      if claim_box_disabled (ui w) then w
      else fst (dispatch (handleClaimChange text) w)
  | ClickQuery =>
      match query_button_disabled (ui w) with
      | Normal false => fst (dispatch handleQuery_begin w)
      | _ => w
      end
  | QuerySettled r => fst (dispatch (handleQuery_settle r) w)
  | ClickFactCheck =>
      match fact_button_disabled (ui w) with
      | Normal false => fst (dispatch handleFactCheck_begin w)
      | _ => w
      end
  | FactCheckSettled r => fst (dispatch (handleFactCheck_settle r) w)
  end.

Definition run (events : list event) (w : World) : World :=
  fold_left (fun w e => handle e w) events w.

(** What an event does to the state: nothing ([None]) when the control is
    disabled, else the state its handler leaves.  [handle_react] proves
    [handle] to be this, followed by the persist effect. *)
Definition react (e : event) (st : State) : option State :=
  match e with
  | TypeQuestion text =>
      if question_box_disabled st then None
      else Some (fst (handleQuestionChange text st))
  | TypeClaim text =>
      if claim_box_disabled st then None
      else Some (fst (handleClaimChange text st))
  | ClickQuery =>
      match query_button_disabled st with
      | Normal false => Some (fst (handleQuery_begin st))
      | _ => None
      end
  | QuerySettled r => Some (fst (handleQuery_settle r st))
  | ClickFactCheck =>
      match fact_button_disabled st with
      | Normal false => Some (fst (handleFactCheck_begin st))
      | _ => None
      end
  | FactCheckSettled r => Some (fst (handleFactCheck_settle r st))
  end.

(** The state with the question-side cells of [a] and the fact-check-side
    cells of [b]. *)
Definition mix (a b : State) : State :=
  mkState (question a) (answer a) (loading a) (status a)
          (claim b) (factResult b) (factLoading b) (factError b).

(** The events of the question side of the page; the others are those of
    the fact-check side. *)
Definition query_side (e : event) : bool :=
  match e with
  | TypeQuestion _ | ClickQuery | QuerySettled _ => true
  | TypeClaim _ | ClickFactCheck | FactCheckSettled _ => false
  end.

(** No persisted cell is [undefined], and [answer] is not [null] either. *)
Definition cells_defined (st : State) : bool :=
  negb (nullish (question st)) && negb (nullish (answer st))
  && negb (nullish (claim st))
  && match factResult st with JUndefined => false | _ => true end.

(** Both inputs are strings. *)
Definition inputs_are_strings (st : State) : bool :=
  Saved.is_string (question st) && Saved.is_string (claim st).

(** The text of a snapshot with all four members. *)
Definition full_snapshot (q a c f : value) : string :=
  "{" ++ String.concat ","
           [JSON.member_text ("question", q); JSON.member_text ("answer", a);
            JSON.member_text ("claim", c); JSON.member_text ("factResult", f)]
      ++ "}".

End Session.

(** ** White space, as runs of characters *)

Module Spaces.
Import JS.

(** [s] is made of characters that [one], [two] and [three] recognise. *)
Inductive made_of (one : ascii -> bool) (two : ascii -> ascii -> bool)
    (three : ascii -> ascii -> ascii -> bool) : string -> Prop :=
| made_nil : made_of one two three EmptyString
| made_one (c : ascii) (s : string) :
    one c = true -> made_of one two three s ->
    made_of one two three (String c s)
| made_two (c d : ascii) (s : string) :
    two c d = true -> made_of one two three s ->
    made_of one two three (String c (String d s))
| made_three (c d e : ascii) (s : string) :
    three c d e = true -> made_of one two three s ->
    made_of one two three (String c (String d (String e s))).

(** The white-space characters, front to back and back to front. *)
Definition spaces : string -> Prop := made_of is_space is_space2 is_space3.

Definition spaces_backwards : string -> Prop :=
  made_of is_space (fun d c => is_space2 c d) (fun e d c => is_space3 c d e).

End Spaces.

(** ** More sample data *)

Module Scenes.
Import JS Page Session.

(** A reply whose answer is the empty string. *)
Definition empty_answer : fetch_result :=
  Responded true (Samples.body_of (JObj [("answer", JStr "")])).

(** A page whose last answer was the number zero. *)
Definition zero_answer : State :=
  mkState (JStr "How many?") (JNum 0) false "" (JStr "") JNull false None.

(** A question with a quote, a backslash and a line feed in it. *)
Definition awkward : string :=
  String JSON.dquote (String JSON.backslash (String (ascii_of_nat 10) "x")).

Definition asking_awkward : State :=
  mkState (JStr awkward) (JStr "") false "" (JStr awkward) JNull false None.

(** Two requests out at once, the fact check settling first, and a retry. *)
Definition busy_day : list event :=
  [TypeQuestion "What is RAG?"; ClickQuery; ClickQuery;
   TypeClaim "Water boils at 100C at sea level."; ClickFactCheck;
   FactCheckSettled Samples.supported_reply;
   QuerySettled Samples.unreachable;
   ClickQuery; QuerySettled Samples.answer_X].

End Scenes.

(** * Properties *)

(** ** [JSON.parse] reads back what [JSON.stringify] writes *)

Module JSONFacts.
Import JS JSON.

Lemma append_assoc (a b c : string) : (a ++ b) ++ c = a ++ (b ++ c).
Proof. induction a as [ | x a IH]; cbn; [ reflexivity | now rewrite IH ]. Qed.

Lemma append_nil_r (a : string) : a ++ "" = a.
Proof. induction a as [ | x a IH]; cbn; [ reflexivity | now rewrite IH ]. Qed.

Lemma length_append (a b : string) :
  String.length (a ++ b) = String.length a + String.length b.
Proof. induction a as [ | x a IH]; cbn; [ reflexivity | now rewrite IH ]. Qed.

Lemma parse_chars_escape_char (c : ascii) (t : string) :
  parse_chars (escape_char c ++ t) =
  match parse_chars t with
  | Some (u, rest) => Some (String c u, rest)
  | None => None
  end.
Proof. destruct c as [[] [] [] [] [] [] [] []]; reflexivity. Qed.

Lemma parse_chars_escape (s rest : string) :
  parse_chars (escape s ++ String dquote rest) = Some (s, rest).
Proof.
  induction s as [ | c s IH]; cbn [escape].
  - reflexivity.
  - rewrite append_assoc, parse_chars_escape_char, IH. reflexivity.
Qed.

Lemma parse_chars_quote (s rest : string) :
  parse_chars (tail (quote s ++ rest)) = Some (s, rest).
Proof.
  unfold quote. cbn [append tail]. rewrite append_assoc. apply parse_chars_escape.
Qed.

(** *** Integer literals *)

Lemma ends_number_cases (rest : string) :
  ends_number rest = true ->
  span_digits rest = (EmptyString, rest) /\
  fraction rest = Some (EmptyString, rest) /\
  exponent rest = Some (0%Z, rest).
Proof.
  destruct rest as [ | c rest]; [ intros _; repeat split | ].
  cbn [ends_number]. intros H. apply negb_true_iff in H.
  apply orb_false_elim in H as [H HE]. apply orb_false_elim in H as [H He].
  apply orb_false_elim in H as [Hd Hp].
  unfold fraction, exponent. cbn [span_digits starts_with].
  rewrite Hd, Hp, He, HE. repeat split.
Qed.

Lemma span_digits_app (a rest : string) :
  all_digits a = true -> span_digits rest = (EmptyString, rest) ->
  span_digits (a ++ rest) = (a, rest).
Proof.
  intros Ha Hr. induction a as [ | c a IH]; cbn in *; [ exact Hr | ].
  apply andb_prop in Ha as [Hc Ha]. rewrite Hc, (IH Ha). reflexivity.
Qed.

Lemma all_digits_uint (d : Decimal.uint) :
  all_digits (NilEmpty.string_of_uint d) = true.
Proof. induction d; cbn; auto. Qed.

Lemma digits_value_uint (d : Decimal.uint) :
  digits_value (NilEmpty.string_of_uint d) = Z.of_uint d.
Proof. unfold digits_value. now rewrite NilEmpty.usu. Qed.

Lemma string_of_Z_pos (p : positive) :
  string_of_Z (Z.pos p) = NilEmpty.string_of_uint (Pos.to_uint p).
Proof.
  unfold string_of_Z. cbn. pose proof (Unsigned.to_uint_nonnil p) as H.
  destruct (Pos.to_uint p); try reflexivity. congruence.
Qed.

Lemma of_uint_to_uint (p : positive) : Z.of_uint (Pos.to_uint p) = Z.pos p.
Proof. exact (DecimalZ.of_to (Z.pos p)). Qed.

(** The digits of a natural number: all digits, not empty, and canonical. *)
Lemma digits_of_abs (n : Z) :
  (0 <= n)%Z ->
  all_digits (string_of_Z n) = true /\
  digits_value (string_of_Z n) = n /\
  exists c t, string_of_Z n = String c t /\ is_digit c = true.
Proof.
  destruct n as [ | p | p]; intros Hn; [ | | lia ].
  - repeat split. exists "0"%char, EmptyString. split; reflexivity.
  - rewrite string_of_Z_pos. split; [ apply all_digits_uint | ].
    split; [ now rewrite digits_value_uint, of_uint_to_uint | ].
    pose proof (Unsigned.to_uint_nonnil p) as H.
    destruct (Pos.to_uint p); try congruence; cbn; eauto.
Qed.

Lemma string_of_Z_neg (p : positive) :
  string_of_Z (Z.neg p) = String "-" (string_of_Z (Z.pos p)).
Proof.
  rewrite string_of_Z_pos. unfold string_of_Z. cbn.
  pose proof (Unsigned.to_uint_nonnil p) as H.
  destruct (Pos.to_uint p); try reflexivity. congruence.
Qed.

Lemma digit_not_minus (c : ascii) : is_digit c = true -> (c =? "-")%char = false.
Proof.
  destruct c as [[] [] [] [] [] [] [] []]; vm_compute; intros H;
    solve [ discriminate H | reflexivity ].
Qed.

Lemma string_of_Z_head (n : Z) :
  exists c t, string_of_Z n = String c t /\ (is_digit c = true \/ c = "-"%char).
Proof.
  destruct n as [ | p | p].
  - exists "0"%char, EmptyString. split; [ reflexivity | now left ].
  - destruct (digits_of_abs (Z.pos p)) as (_ & _ & c & t & E & Hc); [ lia | eauto ].
  - rewrite string_of_Z_neg. eauto.
Qed.

(** The digits of a natural number, read as a number literal. *)
Lemma parse_number_digits (negative : bool) (n : Z) (rest : string) :
  (0 <= n)%Z -> ends_number rest = true ->
  parse_number ((if negative then "-" else "") ++ string_of_Z n ++ rest)
  = Some (JNum (if negative then - n else n), rest).
Proof.
  intros Hn Hr.
  destruct (digits_of_abs n Hn) as (Hall & Hval & c & t & E & Hc).
  destruct (ends_number_cases rest Hr) as (Hspan & Hfrac & Hexp).
  assert (Hsp : span_digits (string_of_Z n ++ rest) = (string_of_Z n, rest))
    by now apply span_digits_app.
  assert (Hminus : starts_with "-" (string_of_Z n ++ rest) = false).
  { rewrite E. cbn. now apply digit_not_minus. }
  unfold parse_number.
  destruct negative; cbn [append starts_with tail].
  - change ("-" =? "-")%char with true. cbv iota.
    rewrite Hsp, Hval, String.eqb_refl, Hfrac, Hexp, append_nil_r, Hval.
    cbn [String.length Z.of_nat Z.sub Z.opp decimal Z.leb Z.compare].
    unfold decimal. cbn [Z.leb Z.compare Z.pow]. now rewrite Z.mul_1_r.
  - rewrite Hminus, Hsp, Hval, String.eqb_refl, Hfrac, Hexp, append_nil_r, Hval.
    unfold decimal. cbn [String.length Z.of_nat Z.sub Z.opp Z.leb Z.compare Z.pow].
    now rewrite Z.mul_1_r.
Qed.

Lemma parse_number_string_of_Z (n : Z) (rest : string) :
  ends_number rest = true ->
  parse_number (string_of_Z n ++ rest) = Some (JNum n, rest).
Proof.
  intros Hr. destruct n as [ | p | p].
  - exact (parse_number_digits false 0 rest (Z.le_refl 0) Hr).
  - exact (parse_number_digits false (Z.pos p) rest (Pos2Z.is_nonneg p) Hr).
  - rewrite string_of_Z_neg.
    exact (parse_number_digits true (Z.pos p) rest (Pos2Z.is_nonneg p) Hr).
Qed.

Lemma serialize_JArr (l : list value) :
  serialize (JArr l) = Some ("[" ++ String.concat "," (map text_of l) ++ "]").
Proof. reflexivity. Qed.

Lemma json_ok_serialize (v : value) :
  json_ok v = true -> serialize v = Some (text_of v).
Proof.
  unfold text_of. destruct v; cbn [json_ok]; try discriminate;
    intros _; try reflexivity.
  destruct b; reflexivity.
Qed.

Lemma members_flat_map (fs : list (string * value)) :
  forallb (fun kv => json_ok (snd kv)) fs = true ->
  flat_map (fun kv => match serialize (snd kv) with
                      | Some t => [quote (fst kv) ++ ":" ++ t]
                      | None => []
                      end) fs
  = map member_text fs.
Proof.
  induction fs as [ | kv fs IH]; cbn [forallb flat_map map]; [ reflexivity | ].
  intros H. apply andb_prop in H as [Hx Hfs].
  unfold member_text at 1. rewrite (json_ok_serialize _ Hx), (IH Hfs). reflexivity.
Qed.

Lemma serialize_JObj (fs : list (string * value)) :
  forallb (fun kv => json_ok (snd kv)) fs = true ->
  serialize (JObj fs) = Some ("{" ++ String.concat "," (map member_text fs) ++ "}").
Proof.
  intros H. cbn [serialize]. now rewrite (members_flat_map fs H).
Qed.

Lemma num_char_token (c : ascii) :
  is_digit c = true \/ c = "-"%char ->
  negb (is_ws c) && negb (c =? "]")%char = true.
Proof.
  intros [H | ->]; [ | reflexivity ]. revert H.
  destruct c as [[] [] [] [] [] [] [] []]; vm_compute; intros H;
    solve [ discriminate H | reflexivity ].
Qed.

Lemma text_of_head (v : value) : json_ok v = true -> token_head (text_of v) = true.
Proof.
  destruct v; cbn [json_ok]; try discriminate; intros _; try reflexivity.
  - destruct b; reflexivity.
  - unfold text_of; cbn [serialize].
    destruct (string_of_Z_head n) as (c & t & -> & Hc). cbn. now apply num_char_token.
Qed.

Lemma token_head_skip (t u : string) :
  token_head t = true ->
  skip_ws (t ++ u) = t ++ u /\ starts_with "]" (t ++ u) = false.
Proof.
  destruct t as [ | c t]; cbn; [ discriminate | ].
  intros H. apply andb_prop in H as [Hw Hb].
  apply negb_true_iff in Hw, Hb. rewrite Hw. auto.
Qed.

Lemma parse_elems_S (f : nat) (s : string) :
  parse_elems (S f) s =
  match parse_value f s with
  | Some (v, r) =>
      if starts_with "," (skip_ws r) then
        match parse_elems f (tail (skip_ws r)) with
        | Some (vs, rest) => Some (v :: vs, rest)
        | None => None
        end
      else if starts_with "]" (skip_ws r) then Some ([v], tail (skip_ws r))
      else None
  | None => None
  end.
Proof. reflexivity. Qed.

Lemma parse_members_S (f : nat) (s : string) :
  parse_members (S f) s =
  if starts_with dquote (skip_ws s) then
    match parse_chars (tail (skip_ws s)) with
    | Some (k, r1) =>
        if starts_with ":" (skip_ws r1) then
          match parse_value f (tail (skip_ws r1)) with
          | Some (v, r3) =>
              if starts_with "," (skip_ws r3) then
                match parse_members f (tail (skip_ws r3)) with
                | Some (ms, rest) => Some ((k, v) :: ms, rest)
                | None => None
                end
              else if starts_with "}" (skip_ws r3)
              then Some ([(k, v)], tail (skip_ws r3))
              else None
          | None => None
          end
        else None
    | None => None
    end
  else None.
Proof. reflexivity. Qed.

Lemma skip_ws_String (c : ascii) (s : string) :
  is_ws c = false -> skip_ws (String c s) = String c s.
Proof. intros H. cbn [skip_ws]. now rewrite H. Qed.

Lemma parse_elems_back (l : list value) :
  Forall reads_back l -> forallb json_ok l = true -> l <> [] ->
  forall (fuel : nat) (rest : string),
    elems_depth l <= fuel ->
    parse_elems fuel (String.concat "," (map text_of l) ++ String "]" rest)
    = Some (l, rest).
Proof.
  induction 1 as [ | x l Hx Hl IH]; [ congruence | ].
  cbn [forallb]. intros Hok _ fuel rest Hfuel.
  apply andb_prop in Hok as [Hokx Hokl].
  unfold elems_depth in Hfuel; cbn [fold_right] in Hfuel; fold (elems_depth l) in Hfuel.
  destruct fuel as [ | f]; [ lia | ].
  rewrite parse_elems_S.
  destruct l as [ | y l'].
  - cbn [map String.concat].
    rewrite (Hx Hokx f (String "]" rest)) by (cbn; auto; lia).
    rewrite skip_ws_String by reflexivity. reflexivity.
  - change (String.concat "," (map text_of (x :: y :: l')))
      with (text_of x ++ String "," (String.concat "," (map text_of (y :: l')))).
    rewrite append_assoc. cbn [append].
    rewrite (Hx Hokx f) by (cbn; auto; lia).
    rewrite skip_ws_String by reflexivity. cbn [starts_with tail].
    change ("," =? ",")%char with true. cbv iota.
    rewrite IH; [ reflexivity | assumption | discriminate | lia ].
Qed.

Lemma parse_members_back (fs : list (string * value)) :
  Forall (fun kv => reads_back (snd kv)) fs ->
  forallb (fun kv => json_ok (snd kv)) fs = true -> fs <> [] ->
  forall (fuel : nat) (rest : string),
    members_depth fs <= fuel ->
    parse_members fuel (String.concat "," (map member_text fs) ++ String "}" rest)
    = Some (fs, rest).
Proof.
  induction 1 as [ | [k x] fs Hx Hfs IH]; [ congruence | ].
  cbn [forallb snd]. intros Hok _ fuel rest Hfuel.
  apply andb_prop in Hok as [Hokx Hokfs].
  unfold members_depth in Hfuel; cbn [fold_right snd] in Hfuel;
    fold (members_depth fs) in Hfuel.
  cbn [snd] in Hx.
  destruct fuel as [ | f]; [ lia | ].
  rewrite parse_members_S.
  assert (Hhead : forall u : string,
    member_text (k, x) ++ u
    = String dquote (escape k ++ String dquote (String ":" (text_of x ++ u)))).
  { intros u. unfold member_text, quote. cbn [fst snd append].
    rewrite !append_assoc. cbn [append]. reflexivity. }
  destruct fs as [ | kv fs'].
  - cbn [map String.concat]. rewrite Hhead.
    rewrite skip_ws_String by reflexivity. cbn [starts_with tail].
    rewrite Ascii.eqb_refl, parse_chars_escape.
    rewrite skip_ws_String by reflexivity. cbn [starts_with tail].
    change (":" =? ":")%char with true. cbv iota.
    rewrite (Hx Hokx f (String "}" rest)) by (cbn; auto; lia).
    rewrite skip_ws_String by reflexivity. reflexivity.
  - change (String.concat "," (map member_text ((k, x) :: kv :: fs')))
      with (member_text (k, x)
            ++ String "," (String.concat "," (map member_text (kv :: fs')))).
    rewrite append_assoc, Hhead. cbn [append].
    rewrite skip_ws_String by reflexivity. cbn [starts_with tail].
    rewrite Ascii.eqb_refl, parse_chars_escape.
    rewrite skip_ws_String by reflexivity. cbn [starts_with tail].
    change (":" =? ":")%char with true. cbv iota.
    rewrite (Hx Hokx f) by (cbn; auto; lia).
    rewrite skip_ws_String by reflexivity. cbn [starts_with tail].
    change ("," =? ",")%char with true. cbv iota.
    rewrite IH; [ reflexivity | assumption | discriminate | lia ].
Qed.

Lemma obj_set_fresh (k : string) (v : value) (acc : list (string * value)) :
  existsb (String.eqb k) (map fst acc) = false ->
  obj_set k v acc = (acc ++ [(k, v)])%list.
Proof.
  induction acc as [ | [k' v'] acc IH]; cbn; [ reflexivity | ].
  intros H. apply orb_false_elim in H as [Hk Hacc].
  rewrite String.eqb_sym, Hk, (IH Hacc). reflexivity.
Qed.

Lemma distinct_app_fresh (acc : list string) (k : string) (ks : list string) :
  distinct (acc ++ k :: ks)%list = true ->
  existsb (String.eqb k) acc = false /\ distinct ((acc ++ [k]) ++ ks)%list = true.
Proof.
  intros H. rewrite <- app_assoc. cbn [app]. split; [ | exact H ].
  induction acc as [ | a acc IH]; cbn in *; [ reflexivity | ].
  apply andb_prop in H as [Ha Hd]. apply negb_true_iff in Ha.
  rewrite existsb_app in Ha. apply orb_false_elim in Ha as [_ Ha].
  cbn in Ha. apply orb_false_elim in Ha as [Ha _].
  rewrite String.eqb_sym, Ha. cbn. auto.
Qed.

Lemma build_obj_acc (ms acc : list (string * value)) :
  distinct (map fst (acc ++ ms)%list) = true ->
  fold_left (fun a kv => obj_set (fst kv) (snd kv) a) ms acc = (acc ++ ms)%list.
Proof.
  revert acc. induction ms as [ | [k v] ms IH]; intros acc H; cbn [fold_left fst snd].
  - now rewrite app_nil_r.
  - rewrite map_app in H. cbn [map fst] in H.
    apply distinct_app_fresh in H as [Hk Hd].
    rewrite (obj_set_fresh k v acc Hk).
    rewrite IH.
    + now rewrite <- app_assoc.
    + rewrite !map_app. cbn [map fst]. exact Hd.
Qed.

Lemma build_obj_distinct (ms : list (string * value)) :
  distinct (map fst ms) = true -> build_obj ms = ms.
Proof. intros H. unfold build_obj. now rewrite build_obj_acc. Qed.

Lemma parse_value_S_open (f : nat) (c : ascii) (r : string) :
  is_ws c = false ->
  parse_value (S f) (String c r) =
  if (c =? dquote)%char then
    match parse_chars r with
    | Some (t, rest) => Some (JStr t, rest)
    | None => None
    end
  else if (c =? "n")%char then expect "ull" JNull r
  else if (c =? "t")%char then expect "rue" (JBool true) r
  else if (c =? "f")%char then expect "alse" (JBool false) r
  else if (c =? "[")%char then
    if starts_with "]" (skip_ws r) then Some (JArr [], tail (skip_ws r))
    else
      match parse_elems f r with
      | Some (vs, rest) => Some (JArr vs, rest)
      | None => None
      end
  else if (c =? "{")%char then
    if starts_with "}" (skip_ws r) then Some (JObj [], tail (skip_ws r))
    else
      match parse_members f r with
      | Some (ms, rest) => Some (JObj (build_obj ms), rest)
      | None => None
      end
  else parse_number (String c r).
Proof.
  intros H. cbn [parse_value]. rewrite (skip_ws_String c r H). reflexivity.
Qed.

Lemma num_char_value (c : ascii) (r : string) (f : nat) :
  is_digit c = true \/ c = "-"%char ->
  parse_value (S f) (String c r) = parse_number (String c r).
Proof.
  intros [H | ->]; [ | reflexivity ].
  rewrite parse_value_S_open.
  - destruct c as [[] [] [] [] [] [] [] []]; try discriminate H; reflexivity.
  - destruct c as [[] [] [] [] [] [] [] []]; try discriminate H; reflexivity.
Qed.

(** Every JSON value reads back from its text. *)
Lemma parse_value_back (v : value) : reads_back v.
Proof.
  induction v using value_nested_ind; unfold reads_back;
    cbn [json_ok]; intros Hok fuel rest Hfuel Hrest; try discriminate Hok.
  - (* null *)
    destruct fuel as [ | f]; [ cbn in Hfuel; lia | ]. reflexivity.
  - (* booleans *)
    destruct fuel as [ | f]; [ cbn in Hfuel; lia | ]. destruct b; reflexivity.
  - (* numbers *)
    destruct fuel as [ | f]; [ cbn in Hfuel; lia | ].
    unfold text_of; cbn [serialize].
    destruct (string_of_Z_head n) as (c & t & E & Hc).
    rewrite <- (parse_number_string_of_Z n rest Hrest).
    rewrite E. cbn [append]. now apply num_char_value.
  - (* strings *)
    destruct fuel as [ | f]; [ cbn in Hfuel; lia | ].
    unfold text_of; cbn [serialize]. unfold quote. cbn [append].
    rewrite parse_value_S_open by reflexivity.
    rewrite Ascii.eqb_refl, append_assoc. cbn [append].
    now rewrite parse_chars_escape.
  - (* arrays *)
    destruct fuel as [ | f]; [ cbn in Hfuel; lia | ].
    unfold text_of. rewrite serialize_JArr. cbn [append].
    rewrite parse_value_S_open by reflexivity.
    change ("[" =? dquote)%char with false. change ("[" =? "n")%char with false.
    change ("[" =? "t")%char with false. change ("[" =? "f")%char with false.
    change ("[" =? "[")%char with true. cbv iota.
    rewrite append_assoc. cbn [append].
    destruct l as [ | x l'].
    + reflexivity.
    + assert (Hx : token_head (text_of x) = true).
      { apply text_of_head. cbn [forallb] in Hok. now apply andb_prop in Hok as [? _]. }
      assert (Hs : forall u,
        skip_ws (String.concat "," (map text_of (x :: l')) ++ u)
        = String.concat "," (map text_of (x :: l')) ++ u
        /\ starts_with "]" (String.concat "," (map text_of (x :: l')) ++ u) = false).
      { intros u. destruct l' as [ | y l''].
        - cbn [map String.concat]. now apply token_head_skip.
        - change (String.concat "," (map text_of (x :: y :: l'')))
            with (text_of x ++ String "," (String.concat "," (map text_of (y :: l'')))).
          rewrite append_assoc. now apply token_head_skip. }
      destruct (Hs (String "]" rest)) as [-> ->].
      rewrite parse_elems_back; [ reflexivity | assumption | assumption | discriminate | ].
      cbn [depth] in Hfuel. fold (elems_depth (x :: l')) in Hfuel. lia.
  - (* objects *)
    apply andb_prop in Hok as [Hok Hd].
    destruct fuel as [ | f]; [ cbn in Hfuel; lia | ].
    unfold text_of. rewrite (serialize_JObj fs Hok). cbn [append].
    rewrite parse_value_S_open by reflexivity.
    change ("{" =? dquote)%char with false. change ("{" =? "n")%char with false.
    change ("{" =? "t")%char with false. change ("{" =? "f")%char with false.
    change ("{" =? "[")%char with false. change ("{" =? "{")%char with true. cbv iota.
    rewrite append_assoc. cbn [append].
    destruct fs as [ | [k x] fs'].
    + reflexivity.
    + assert (Hs : forall u,
        skip_ws (String.concat "," (map member_text ((k, x) :: fs')) ++ u)
        = String.concat "," (map member_text ((k, x) :: fs')) ++ u
        /\ starts_with "}" (String.concat "," (map member_text ((k, x) :: fs')) ++ u) = false).
      { intros u. destruct fs' as [ | kv fs''].
        - cbn [map String.concat]. unfold member_text, quote. cbn [append fst].
          rewrite skip_ws_String by reflexivity. auto.
        - change (String.concat "," (map member_text ((k, x) :: kv :: fs'')))
            with (member_text (k, x)
                  ++ String "," (String.concat "," (map member_text (kv :: fs'')))).
          unfold member_text at 1 3, quote. cbn [append fst].
          rewrite skip_ws_String by reflexivity. auto. }
      destruct (Hs (String "}" rest)) as [-> ->].
      rewrite parse_members_back; [ | assumption | assumption | discriminate | ].
      * now rewrite (build_obj_distinct _ Hd).
      * cbn [depth] in Hfuel. fold (members_depth ((k, x) :: fs')) in Hfuel. lia.
Qed.

Lemma elems_depth_le (l : list value) :
  Forall (fun x => json_ok x = true -> depth x <= String.length (text_of x)) l ->
  forallb json_ok l = true ->
  elems_depth l <= String.length (String.concat "," (map text_of l)) + 1.
Proof.
  induction 1 as [ | x l Hx Hl IH]; cbn [forallb]; intros Hok.
  - cbn. lia.
  - apply andb_prop in Hok as [Hokx Hokl]. specialize (Hx Hokx). specialize (IH Hokl).
    unfold elems_depth; cbn [fold_right]; fold (elems_depth l).
    destruct l as [ | y l'].
    + cbn [map String.concat elems_depth fold_right]. lia.
    + change (String.concat "," (map text_of (x :: y :: l')))
        with (text_of x ++ String "," (String.concat "," (map text_of (y :: l')))).
      rewrite length_append. cbn [String.length]. lia.
Qed.

Lemma members_depth_le (fs : list (string * value)) :
  Forall (fun kv => json_ok (snd kv) = true ->
                    depth (snd kv) <= String.length (text_of (snd kv))) fs ->
  forallb (fun kv => json_ok (snd kv)) fs = true ->
  members_depth fs <= String.length (String.concat "," (map member_text fs)) + 1.
Proof.
  induction 1 as [ | [k x] fs Hx Hfs IH]; cbn [forallb snd]; intros Hok.
  - cbn. lia.
  - apply andb_prop in Hok as [Hokx Hokfs]. cbn [snd] in Hx.
    specialize (Hx Hokx). specialize (IH Hokfs).
    unfold members_depth; cbn [fold_right snd]; fold (members_depth fs).
    assert (Hm : String.length (text_of x) <= String.length (member_text (k, x))).
    { unfold member_text. cbn [fst snd]. rewrite !length_append. lia. }
    destruct fs as [ | kv fs'].
    + cbn [map String.concat members_depth fold_right]. lia.
    + change (String.concat "," (map member_text ((k, x) :: kv :: fs')))
        with (member_text (k, x)
              ++ String "," (String.concat "," (map member_text (kv :: fs')))).
      rewrite length_append. cbn [String.length]. lia.
Qed.

Lemma depth_le_length (v : value) :
  json_ok v = true -> depth v <= String.length (text_of v).
Proof.
  induction v using value_nested_ind; cbn [json_ok]; intros Hok;
    try discriminate Hok.
  - cbn. lia.
  - destruct b; cbn; lia.
  - unfold text_of; cbn [serialize depth].
    destruct (string_of_Z_head n) as (c & t & -> & _). cbn. lia.
  - cbn. lia.
  - unfold text_of. rewrite serialize_JArr. cbn [depth append String.length].
    fold (elems_depth l). rewrite length_append. cbn [String.length].
    pose proof (elems_depth_le l H Hok). lia.
  - apply andb_prop in Hok as [Hok _].
    unfold text_of. rewrite (serialize_JObj fs Hok). cbn [depth append String.length].
    fold (members_depth fs). rewrite length_append. cbn [String.length].
    pose proof (members_depth_le fs H Hok). lia.
Qed.

(** [parse] undoes [stringify] on every JSON value. *)
Theorem parse_stringify (v : value) :
  json_ok v = true ->
  stringify v = JStr (text_of v) /\ parse (text_of v) = Normal v.
Proof.
  intros Hok. split.
  - unfold stringify. now rewrite (json_ok_serialize v Hok).
  - unfold parse.
    pose proof (parse_value_back v Hok (2 * String.length (text_of v) + 2) "") as H.
    rewrite append_nil_r in H. rewrite H; [ reflexivity | | reflexivity ].
    pose proof (depth_le_length v Hok). lia.
Qed.

(** *** What [parse] returns has a text *)

Lemma expect_value (word : string) (v v' : value) (s rest : string) :
  expect word v s = Some (v', rest) -> v' = v.
Proof.
  revert s. induction word as [ | c word IH]; cbn; intros s H.
  - now injection H as <- _.
  - destruct s as [ | d s]; [ discriminate | ].
    destruct (c =? d)%char; [ eauto | discriminate ].
Qed.

Lemma scaled_defined (m : Z) (k : nat) : scaled m k <> JUndefined.
Proof.
  revert m. induction k as [ | k IH]; intros m; cbn; [ discriminate | ].
  destruct (m mod 10 =? 0)%Z; [ apply IH | discriminate ].
Qed.

Lemma decimal_defined (m e : Z) : decimal m e <> JUndefined.
Proof.
  unfold decimal. destruct (0 <=? e)%Z; [ discriminate | apply scaled_defined ].
Qed.

Lemma parse_value_defined (fuel : nat) (s : string) (v : value) (rest : string) :
  parse_value fuel s = Some (v, rest) -> v <> JUndefined.
Proof.
  destruct fuel as [ | f]; [ discriminate | ]. cbn [parse_value].
  destruct (skip_ws s) as [ | c r]; [ discriminate | ].
  destruct (c =? dquote)%char.
  { destruct (parse_chars r) as [[t u] | ]; intros [= <- _]; discriminate. }
  destruct (c =? "n")%char.
  { intros H. apply expect_value in H. subst. discriminate. }
  destruct (c =? "t")%char.
  { intros H. apply expect_value in H. subst. discriminate. }
  destruct (c =? "f")%char.
  { intros H. apply expect_value in H. subst. discriminate. }
  destruct (c =? "[")%char.
  { destruct (starts_with "]" (skip_ws r)); [ intros [= <- _]; discriminate | ].
    destruct (parse_elems f r) as [[vs u] | ]; intros [= <- _]; discriminate. }
  destruct (c =? "{")%char.
  { destruct (starts_with "}" (skip_ws r)); [ intros [= <- _]; discriminate | ].
    destruct (parse_members f r) as [[ms u] | ]; intros [= <- _]; discriminate. }
  unfold parse_number. destruct (span_digits _) as [ip s2].
  destruct (string_of_Z (digits_value ip) =? ip); [ | discriminate ].
  destruct (fraction s2) as [[fp s3] | ]; [ | discriminate ].
  destruct (exponent s3) as [[ex s4] | ]; [ | discriminate ].
  intros [= <- _]. apply decimal_defined.
Qed.

Lemma parse_defined (text : string) (v : value) :
  parse text = Normal v -> v <> JUndefined.
Proof.
  unfold parse.
  destruct (parse_value _ text) as [[v' rest] | ] eqn:E; [ | discriminate ].
  destruct (skip_ws rest =? ""); [ | discriminate ].
  intros [= <-]. exact (parse_value_defined _ _ _ _ E).
Qed.

(** What [parse] returned, [stringify] turns into a string. *)
Lemma stringify_parsed (text : string) (v : value) :
  parse text = Normal v -> stringify v = JStr (text_of v).
Proof.
  intros H. apply parse_defined in H. unfold stringify, text_of.
  destruct v; try reflexivity; [ congruence | destruct b; reflexivity ].
Qed.

End JSONFacts.

Import JS Page.

(** ** The handlers, equationally *)

Lemma handleQuery_settle_eq (r : fetch_result) (st : State) :
  handleQuery_settle r st =
  match query_attempt r with
  | Normal a =>
      (mkState (question st) a false (status st)
               (claim st) (factResult st) (factLoading st) (factError st),
       Normal tt)
  | Throw message =>
      (mkState (question st) (answer st) false (query_prefix ++ message)
               (claim st) (factResult st) (factLoading st) (factError st),
       Normal tt)
  end.
Proof.
  unfold handleQuery_settle, query_attempt, http_error, try_catch, bind, lift, throw, ret.
  destruct (await_fetch r) as [res | m]; [ | reflexivity ].
  destruct (res_json res) as [data | m]; [ | reflexivity ].
  destruct (res_ok res); cbn [negb].
  - destruct (get data "answer"); reflexivity.
  - destruct (get data "detail"); reflexivity.
Qed.

Lemma handleFactCheck_settle_eq (r : fetch_result) (st : State) :
  handleFactCheck_settle r st =
  match fact_attempt r with
  | Normal f =>
      (mkState (question st) (answer st) (loading st) (status st)
               (claim st) f false (factError st),
       Normal tt)
  | Throw message =>
      (mkState (question st) (answer st) (loading st) (status st)
               (claim st) (factResult st) false (Some (fact_prefix ++ message)),
       Normal tt)
  end.
Proof.
  unfold handleFactCheck_settle, fact_attempt, fact_of, http_error,
    try_finally, try_catch, bind, lift, throw, ret.
  destruct (await_fetch r) as [res | m]; [ | reflexivity ].
  destruct (res_json res) as [data | m]; [ | reflexivity ].
  destruct (res_ok res); cbn [negb].
  - destruct (get data "result") as [result | m]; [ | reflexivity ].
    destruct (JSON.parse (ToString result)) as [parsed | m]; [ | reflexivity ].
    destruct (get parsed "verdict"); [ | reflexivity ].
    destruct (get parsed "reason"); [ | reflexivity ].
    destruct (get parsed "evidence"); reflexivity.
  - destruct (get data "detail"); reflexivity.
Qed.

(** The guard of [handleQuery], on a question that is a string. *)
Lemma handleQuery_begin_eq (st : State) (q : string) :
  question st = JStr q ->
  handleQuery_begin st =
  if trim q =? "" then (st, Normal None)
  else
    (mkState (question st) (JStr "") true ""
             (claim st) (factResult st) (factLoading st) (factError st),
     Normal (Some (mkRequest "http://localhost:8000/query"
                     (ToString (JSON.stringify (JObj [("question", JStr q)])))))).
Proof.
  intros Hq. destruct st; cbn in Hq; subst.
  unfold handleQuery_begin, bind, read, lift, ret; cbn.
  destruct (trim q =? ""); reflexivity.
Qed.

Lemma handleFactCheck_begin_eq (st : State) (c : string) :
  claim st = JStr c ->
  handleFactCheck_begin st =
  if trim c =? "" then (st, Normal None)
  else
    (mkState (question st) (answer st) (loading st) (status st)
             (claim st) JNull true None,
     Normal (Some (mkRequest "http://localhost:8000/fact_check"
                     (ToString (JSON.stringify
                        (JObj [("claim", JStr c); ("namespace", JStr "documents")])))))).
Proof.
  intros Hc. destruct st; cbn in Hc; subst.
  unfold handleFactCheck_begin, bind, read, lift, ret; cbn.
  destruct (trim c =? ""); reflexivity.
Qed.

(** ** Trimming *)

Lemma strip_three one two three (c d e : ascii) (r : string) :
  strip one two three (String c (String d (String e r))) =
  if one c then strip one two three (String d (String e r))
  else if two c d then strip one two three (String e r)
  else if three c d e then strip one two three r
  else String c (String d (String e r)).
Proof. reflexivity. Qed.

Lemma blank_three (c d e : ascii) (r : string) :
  blank (String c (String d (String e r))) =
  if is_space c then blank (String d (String e r))
  else if is_space2 c d then blank (String e r)
  else is_space3 c d e && blank r.
Proof. reflexivity. Qed.

Lemma trimStart_blank_gen (s : string) :
  (blank s = true -> trimStart s = "") /\
  (forall c, blank (String c s) = true -> trimStart (String c s) = "") /\
  (forall c d, blank (String c (String d s)) = true ->
               trimStart (String c (String d s)) = "").
Proof.
  unfold trimStart. induction s as [ | e s (IH0 & IH1 & IH2)].
  - split; [ reflexivity | ]. split.
    + intros c. cbn. destruct (is_space c); [ reflexivity | discriminate ].
    + intros c d. cbn. destruct (is_space c).
      * destruct (is_space d); [ reflexivity | discriminate ].
      * destruct (is_space2 c d); [ reflexivity | discriminate ].
  - split; [ apply IH1 | ]. split; [ intros c; apply IH2 | ].
    intros c d. rewrite strip_three, blank_three.
    destruct (is_space c); [ apply IH2 | ].
    destruct (is_space2 c d); [ apply IH1 | ].
    destruct (is_space3 c d e); [ exact IH0 | discriminate ].
Qed.

Lemma trimStart_blank (s : string) : blank s = true -> trimStart s = "".
Proof. apply trimStart_blank_gen. Qed.

(** [trim] of a blank string is the empty string. *)
Lemma trim_blank (s : string) : blank s = true -> trim s = "".
Proof. intros H. unfold trim. rewrite (trimStart_blank s H). reflexivity. Qed.

(** ** Verdict classification *)

(** C7.  The class of the verdict badge is a total function of the verdict:
    the string SUPPORTED gets the positive (green) class, the string
    REFUTED the negative (red) one, and every other value, string or not,
    the neutral (yellow) one; the three classes differ. *)
Theorem verdict_classification (verdict : value) :
  (verdict = JStr "SUPPORTED" -> verdict_className verdict = positive_class) /\
  (verdict = JStr "REFUTED" -> verdict_className verdict = negative_class) /\
  (verdict <> JStr "SUPPORTED" -> verdict <> JStr "REFUTED" ->
   verdict_className verdict = neutral_class) /\
  positive_class <> negative_class /\
  positive_class <> neutral_class /\
  negative_class <> neutral_class.
Proof.
  split; [ intros ->; reflexivity | ].
  split; [ intros ->; reflexivity | ].
  split; [ | split; [ | split ]; discriminate ].
  intros Hs Hr. unfold verdict_className, strict_eq_string.
  destruct verdict as [ | | b | n | m k | s | l | fs]; try reflexivity.
  destruct (s =? "SUPPORTED") eqn:E1.
  - apply String.eqb_eq in E1. congruence.
  - destruct (s =? "REFUTED") eqn:E2; [ | reflexivity ].
    apply String.eqb_eq in E2. congruence.
Qed.

Lemma verdict_classification_witness :
  verdict_className (JStr "SUPPORTED") = positive_class /\
  verdict_className (JStr "REFUTED") = negative_class /\
  verdict_className (JStr "NOT_ENOUGH_INFO") = neutral_class /\
  verdict_className JUndefined = neutral_class.
Proof.
  split; [ | split; [ | split ] ].
  - apply (proj1 (verdict_classification (JStr "SUPPORTED"))). reflexivity.
  - apply (proj1 (proj2 (verdict_classification (JStr "REFUTED")))). reflexivity.
  - apply (proj1 (proj2 (proj2 (verdict_classification (JStr "NOT_ENOUGH_INFO")))));
      discriminate.
  - apply (proj1 (proj2 (proj2 (verdict_classification JUndefined)))); discriminate.
Defined.

(** ** Blank input *)

(** C8.  On an input that is empty or all white space, [handleQuery] and
    [handleFactCheck] return at their guard: no cell of the state changes
    (the busy flags included) and no request is made. *)
Theorem blank_input_is_noop (st : State) (s : string) :
  blank s = true ->
  (question st = JStr s -> handleQuery_begin st = (st, Normal None)) /\
  (claim st = JStr s -> handleFactCheck_begin st = (st, Normal None)).
Proof.
  intros Hb. pose proof (trim_blank s Hb) as Ht. split; intros H.
  - rewrite (handleQuery_begin_eq st s H), Ht. reflexivity.
  - rewrite (handleFactCheck_begin_eq st s H), Ht. reflexivity.
Qed.

Lemma blank_input_is_noop_witness :
  blank "   " = true /\
  handleQuery_begin Samples.idle = (Samples.idle, Normal None) /\
  handleFactCheck_begin Samples.idle = (Samples.idle, Normal None).
Proof.
  split; [ reflexivity | ].
  split.
  - apply (proj1 (blank_input_is_noop Samples.idle "   " eq_refl)). reflexivity.
  - apply (proj2 (blank_input_is_noop Samples.idle "   " eq_refl)). reflexivity.
Defined.

(** ** The busy flags *)

(** C9.  Whatever the fetch produced (a rejection, any status, any body),
    the settlement of either handler completes without throwing and leaves
    that handler's busy flag false. *)
Theorem busy_cleared_on_settlement (r : fetch_result) (st : State) :
  (exists st', handleQuery_settle r st = (st', Normal tt) /\ loading st' = false) /\
  (exists st', handleFactCheck_settle r st = (st', Normal tt) /\ factLoading st' = false).
Proof.
  split.
  - rewrite handleQuery_settle_eq. destruct (query_attempt r); eauto.
  - rewrite handleFactCheck_settle_eq. destruct (fact_attempt r); eauto.
Qed.

(** ** Whole calls *)

Lemma getItem_persist (st : State) (ls : Storage) :
  getItem STORAGE_KEY (persist st ls) = Some (slot_text st).
Proof. reflexivity. Qed.

Lemma call_query_eq (r : fetch_result) (w : World) (q : string) :
  question (ui w) = JStr q -> trim q <> "" ->
  exists st1 req,
    handleQuery_begin (ui w) = (st1, Normal (Some req)) /\
    st1 = mkState (question (ui w)) (JStr "") true ""
                  (claim (ui w)) (factResult (ui w))
                  (factLoading (ui w)) (factError (ui w)) /\
    ui (call_query r w) = fst (handleQuery_settle r st1) /\
    getItem STORAGE_KEY (store (call_query r w))
    = Some (slot_text (ui (call_query r w))).
Proof.
  intros Hq Ht. apply String.eqb_neq in Ht.
  pose proof (handleQuery_begin_eq (ui w) q Hq) as E. rewrite Ht in E.
  unfold call_query, dispatch. rewrite E.
  do 2 eexists. split; [ reflexivity | ]. split; [ reflexivity | ].
  cbn [ui store fst]. destruct (handleQuery_settle r _) as [st2 c]. cbn. auto.
Qed.

Lemma call_factCheck_eq (r : fetch_result) (w : World) (c : string) :
  claim (ui w) = JStr c -> trim c <> "" ->
  exists st1 req,
    handleFactCheck_begin (ui w) = (st1, Normal (Some req)) /\
    st1 = mkState (question (ui w)) (answer (ui w)) (loading (ui w)) (status (ui w))
                  (claim (ui w)) JNull true None /\
    ui (call_factCheck r w) = fst (handleFactCheck_settle r st1) /\
    getItem STORAGE_KEY (store (call_factCheck r w))
    = Some (slot_text (ui (call_factCheck r w))).
Proof.
  intros Hc Ht. apply String.eqb_neq in Ht.
  pose proof (handleFactCheck_begin_eq (ui w) c Hc) as E. rewrite Ht in E.
  unfold call_factCheck, dispatch. rewrite E.
  do 2 eexists. split; [ reflexivity | ]. split; [ reflexivity | ].
  cbn [ui store fst]. destruct (handleFactCheck_settle r _) as [st2 c']. cbn. auto.
Qed.

(** ** Failing calls *)

Lemma http_error_throws (data : value) : exists m, http_error data = Throw m.
Proof. unfold http_error. destruct (get data "detail"); eauto. Qed.

Lemma query_failure_throws (r : fetch_result) :
  query_failure r -> exists m, query_attempt r = Throw m.
Proof.
  intros [m | text | ok text m H]; unfold query_attempt, res_json; cbn.
  - eauto.
  - destruct (JSON.parse text); [ apply http_error_throws | eauto ].
  - rewrite H. eauto.
Qed.

Lemma fact_failure_throws (r : fetch_result) :
  fact_failure r -> exists m, fact_attempt r = Throw m.
Proof.
  intros [m | text | ok text m H | text data result m Hd Hr Hp];
    unfold fact_attempt, res_json; cbn.
  - eauto.
  - destruct (JSON.parse text); [ apply http_error_throws | eauto ].
  - rewrite H. eauto.
  - rewrite Hd, Hr, Hp. eauto.
Qed.

(** C1, as the specification words it, fails: the page shows the answer X
    and a SUPPORTED verdict; the backend cannot be reached; after the
    failed query the answer is the empty string, not X, and after the
    failed fact check the verdict is [null]; the slot holds the emptied
    cells. *)
Lemma failed_call_loses_prior_result :
  query_failure Samples.unreachable /\
  fact_failure Samples.unreachable /\
  answer (ui Samples.prior) = JStr "X" /\
  answer (ui (call_query Samples.unreachable Samples.prior)) = JStr "" /\
  answer (ui (call_query Samples.unreachable Samples.prior))
    <> answer (ui Samples.prior) /\
  factResult (ui Samples.prior) = Samples.supported /\
  factResult (ui (call_factCheck Samples.unreachable Samples.prior)) = JNull /\
  factResult (ui (call_factCheck Samples.unreachable Samples.prior))
    <> factResult (ui Samples.prior) /\
  getItem STORAGE_KEY (store (call_query Samples.unreachable Samples.prior))
  = Some (Samples.body_of
            (JObj [("question", JStr "What is LangChain?"); ("answer", JStr "");
                   ("claim", JStr "Water boils at 100C at sea level.");
                   ("factResult", Samples.supported)])).
Proof.
  split; [ constructor | ]. split; [ constructor | ].
  split; [ reflexivity | ]. split; [ reflexivity | ].
  split; [ discriminate | ]. split; [ reflexivity | ].
  split; [ reflexivity | ]. split; [ discriminate | ].
  reflexivity.
Qed.

(** C1, amended.  A failing call does not keep the value its result cell
    had before the call.  The handler empties the cell when the call starts
    ([answer] to the empty string, [factResult] to [null]); the failed
    settlement writes nothing to it; so after the call the cell, and the
    slot, hold the emptied value.  The failure is reported through the
    handler's own error cell and the other handler's cells are untouched. *)
Theorem failed_call_leaves_result_cleared (w : World) (r : fetch_result) :
  (forall st : State,
     query_failure r ->
     answer (fst (handleQuery_settle r st)) = answer st) /\
  (forall st : State,
     fact_failure r ->
     factResult (fst (handleFactCheck_settle r st)) = factResult st) /\
  (forall q : string,
     question (ui w) = JStr q -> trim q <> "" -> query_failure r ->
     answer (ui (call_query r w)) = JStr "" /\
     (exists m, status (ui (call_query r w)) = query_prefix ++ m) /\
     question (ui (call_query r w)) = question (ui w) /\
     claim (ui (call_query r w)) = claim (ui w) /\
     factResult (ui (call_query r w)) = factResult (ui w) /\
     factError (ui (call_query r w)) = factError (ui w) /\
     getItem STORAGE_KEY (store (call_query r w))
     = Some (slot_text (ui (call_query r w)))) /\
  (forall c : string,
     claim (ui w) = JStr c -> trim c <> "" -> fact_failure r ->
     factResult (ui (call_factCheck r w)) = JNull /\
     (exists m, factError (ui (call_factCheck r w)) = Some (fact_prefix ++ m)) /\
     question (ui (call_factCheck r w)) = question (ui w) /\
     answer (ui (call_factCheck r w)) = answer (ui w) /\
     claim (ui (call_factCheck r w)) = claim (ui w) /\
     status (ui (call_factCheck r w)) = status (ui w) /\
     getItem STORAGE_KEY (store (call_factCheck r w))
     = Some (slot_text (ui (call_factCheck r w)))).
Proof.
  split; [ | split; [ | split ] ].
  - intros st Hf. destruct (query_failure_throws r Hf) as [m Hm].
    rewrite handleQuery_settle_eq, Hm. reflexivity.
  - intros st Hf. destruct (fact_failure_throws r Hf) as [m Hm].
    rewrite handleFactCheck_settle_eq, Hm. reflexivity.
  - intros q Hq Ht Hf.
    destruct (call_query_eq r w q Hq Ht) as (st1 & req & _ & -> & Hui & Hslot).
    destruct (query_failure_throws r Hf) as [m Hm].
    rewrite handleQuery_settle_eq, Hm in Hui. cbn [fst] in Hui.
    rewrite Hslot, Hui. cbn. repeat (split; [ reflexivity || eauto | ]). reflexivity.
  - intros c Hc Ht Hf.
    destruct (call_factCheck_eq r w c Hc Ht) as (st1 & req & _ & -> & Hui & Hslot).
    destruct (fact_failure_throws r Hf) as [m Hm].
    rewrite handleFactCheck_settle_eq, Hm in Hui. cbn [fst] in Hui.
    rewrite Hslot, Hui. cbn. repeat (split; [ reflexivity || eauto | ]). reflexivity.
Qed.

Lemma failed_call_leaves_result_cleared_witness :
  answer (ui (call_query (Responded false (Samples.body_of Samples.index_unavailable))
                Samples.prior)) = JStr "" /\
  factResult (ui (call_factCheck (Responded true "not json") Samples.prior)) = JNull.
Proof.
  split.
  - apply (proj1 (proj2 (proj2
             (failed_call_leaves_result_cleared Samples.prior
                (Responded false (Samples.body_of Samples.index_unavailable)))))
           "What is LangChain?").
    + reflexivity.
    + discriminate.
    + constructor.
  - apply (proj2 (proj2 (proj2
             (failed_call_leaves_result_cleared Samples.prior
                (Responded true "not json"))))
           "Water boils at 100C at sea level.").
    + reflexivity.
    + discriminate.
    + apply (fact_bad_body true "not json" JSON.syntax_error). reflexivity.
Defined.

(** ** What makes a query fail *)

(** The settlement of a query on a 2xx response whose body parses and
    lets its [answer] member be read. *)
Lemma handleQuery_settle_ok (st : State) (text : string) (data a : value) :
  JSON.parse text = Normal data -> get data "answer" = Normal a ->
  handleQuery_settle (Responded true text) st
  = (mkState (question st) (coalesce a (JStr no_answer)) false (status st)
             (claim st) (factResult st) (factLoading st) (factError st),
     Normal tt).
Proof.
  intros Hd Ha. rewrite handleQuery_settle_eq.
  unfold query_attempt, res_json. cbn. rewrite Hd, Ha. reflexivity.
Qed.

(** C2, as the specification words it, fails: the backend answers 200 with a
    body that has a [detail] member; the call is not treated as a failure:
    the placeholder answer is written and the error cell stays empty. *)
Lemma detail_on_success_is_not_a_failure :
  JSON.parse (Samples.body_of Samples.index_unavailable)
    = Normal Samples.index_unavailable /\
  get Samples.index_unavailable "detail" = Normal (JStr "index unavailable") /\
  answer (ui (call_query (Responded true (Samples.body_of Samples.index_unavailable))
                Samples.prior)) = JStr no_answer /\
  status (ui (call_query (Responded true (Samples.body_of Samples.index_unavailable))
                Samples.prior)) = "".
Proof. repeat (split; [ reflexivity | ]). reflexivity. Qed.

(** C2, amended.  A response is a failure whenever its status is not 2xx,
    whatever its body: the settlement leaves [answer] alone and sets the
    error cell.  A 2xx response is not a failure on account of its body's
    members: with a body that parses and is not [null], [detail] or no
    [detail], the answer is written from the [answer] member (or the
    placeholder) and the error cell is left alone. *)
Theorem query_fails_by_status_only (st : State) (text : string) :
  (exists m,
     handleQuery_settle (Responded false text) st
     = (mkState (question st) (answer st) false (query_prefix ++ m)
                (claim st) (factResult st) (factLoading st) (factError st),
        Normal tt)) /\
  (forall data a : value,
     JSON.parse text = Normal data -> get data "answer" = Normal a ->
     handleQuery_settle (Responded true text) st
     = (mkState (question st) (coalesce a (JStr no_answer)) false (status st)
                (claim st) (factResult st) (factLoading st) (factError st),
        Normal tt)).
Proof.
  split.
  - destruct (query_failure_throws _ (query_bad_status text)) as [m Hm].
    exists m. rewrite handleQuery_settle_eq, Hm. reflexivity.
  - intros data a. apply handleQuery_settle_ok.
Qed.

Lemma query_fails_by_status_only_witness :
  handleQuery_settle (Responded true (Samples.body_of Samples.index_unavailable))
    (ui Samples.prior)
  = (mkState (JStr "What is LangChain?") (JStr no_answer) false ""
             (JStr "Water boils at 100C at sea level.") Samples.supported false None,
     Normal tt).
Proof.
  apply (proj2 (query_fails_by_status_only (ui Samples.prior)
                  (Samples.body_of Samples.index_unavailable))
           Samples.index_unavailable JUndefined); reflexivity.
Defined.

(** ** A successful query *)

(** C3, as the specification words it, fails on two bodies that are JSON
    and arrive with status 200.  The body [null] has no [answer], yet no
    placeholder is written: reading the member throws, the answer stays
    empty and the error cell is set.  The body whose [answer] is [null] has
    the member, yet what is written is the placeholder, not the member. *)
Lemma answer_null_cases :
  JSON.parse "null" = Normal JNull /\
  answer (ui (call_query (Responded true "null") Samples.prior)) = JStr "" /\
  status (ui (call_query (Responded true "null") Samples.prior))
  = query_prefix ++ cannot_read "null" "answer" /\
  status (ui (call_query (Responded true "null") Samples.prior)) <> "" /\
  JSON.parse (Samples.body_of (JObj [("answer", JNull)]))
  = Normal (JObj [("answer", JNull)]) /\
  get (JObj [("answer", JNull)]) "answer" = Normal JNull /\
  answer (ui (call_query (Responded true (Samples.body_of (JObj [("answer", JNull)])))
                Samples.prior)) = JStr no_answer /\
  answer (ui (call_query (Responded true (Samples.body_of (JObj [("answer", JNull)])))
                Samples.prior)) <> JNull.
Proof.
  split; [ reflexivity | ]. split; [ reflexivity | ]. split; [ reflexivity | ].
  split; [ discriminate | ]. split; [ reflexivity | ]. split; [ reflexivity | ].
  split; [ reflexivity | discriminate ].
Qed.

(** C3, amended.  For a question that is not blank, a 2xx reply whose body
    parses to something other than [null] (so that its [answer] member can
    be read) ends with the error cell empty, the busy flag false, and the
    [answer] cell equal to the body's [answer] member when that member is
    there and is not [null], and to the placeholder when it is missing or
    [null].  When the page can show that state (as it can whenever the
    answer is a string), the render is committed and the slot holds the
    snapshot with that answer. *)
Theorem successful_query_writes_answer
    (w : World) (q text : string) (data a : value) :
  question (ui w) = JStr q -> trim q <> "" ->
  JSON.parse text = Normal data -> get data "answer" = Normal a ->
  (nullish a = false -> answer (ui (call_query (Responded true text) w)) = a) /\
  (nullish a = true ->
   answer (ui (call_query (Responded true text) w)) = JStr "No answer returned.") /\
  status (ui (call_query (Responded true text) w)) = "" /\
  loading (ui (call_query (Responded true text) w)) = false /\
  (View.renders (ui (call_query (Responded true text) w)) = true ->
   getItem STORAGE_KEY (store (call_query (Responded true text) w))
   = Some (slot_text (ui (call_query (Responded true text) w)))).
Proof.
  intros Hq Ht Hd Ha.
  destruct (call_query_eq (Responded true text) w q Hq Ht)
    as (st1 & req & _ & -> & Hui & Hslot).
  rewrite (handleQuery_settle_ok _ text data a Hd Ha) in Hui.
  cbn [fst] in Hui. rewrite Hslot, Hui. cbn. unfold coalesce.
  split; [ intros ->; reflexivity | ].
  split; [ intros ->; reflexivity | ].
  auto.
Qed.

Lemma successful_query_writes_answer_witness :
  answer (ui (call_query Samples.answer_X Samples.prior)) = JStr "X2" /\
  status (ui (call_query Samples.answer_X Samples.prior)) = "" /\
  View.renders (ui (call_query Samples.answer_X Samples.prior)) = true /\
  getItem STORAGE_KEY (store (call_query Samples.answer_X Samples.prior))
  = Some (slot_text (ui (call_query Samples.answer_X Samples.prior))).
Proof.
  pose proof (successful_query_writes_answer Samples.prior "What is LangChain?"
                (Samples.body_of (JObj [("answer", JStr "X2")]))
                (JObj [("answer", JStr "X2")]) (JStr "X2")
                eq_refl ltac:(discriminate) eq_refl eq_refl) as H.
  split; [ apply (proj1 H); reflexivity | ].
  split; [ apply (proj1 (proj2 (proj2 H))) | ].
  split; [ reflexivity | ].
  apply (proj2 (proj2 (proj2 (proj2 H)))). reflexivity.
Defined.

(** ** The fact check's two-stage decoding *)

(** C4.  On a 2xx response the body is parsed, its [result] member is
    parsed again, and the [verdict], [reason] and [evidence] of what comes
    out are written to [factResult], an [evidence] that is missing (or
    otherwise falsy) replaced by the empty array; the error cell is left
    alone.  A parse failure at the first or at the second stage sets the
    error cell to the fixed prefix followed by the parser's message, and a
    non-2xx status sets it to the same prefix followed by a message; the
    busy flag ends false in every case. *)
Theorem fact_check_two_stage_decode (st : State) (text : string) :
  (forall data result parsed verdict reason evidence : value,
     JSON.parse text = Normal data ->
     get data "result" = Normal result ->
     JSON.parse (ToString result) = Normal parsed ->
     get parsed "verdict" = Normal verdict ->
     get parsed "reason" = Normal reason ->
     get parsed "evidence" = Normal evidence ->
     handleFactCheck_settle (Responded true text) st
     = (mkState (question st) (answer st) (loading st) (status st) (claim st)
                (JObj [("verdict", verdict); ("reason", reason);
                       ("evidence", if truthy evidence then evidence else JArr [])])
                false (factError st),
        Normal tt)) /\
  (forall (ok : bool) (m : string),
     JSON.parse text = Throw m ->
     handleFactCheck_settle (Responded ok text) st
     = (mkState (question st) (answer st) (loading st) (status st) (claim st)
                (factResult st) false (Some (fact_prefix ++ m)),
        Normal tt)) /\
  (forall (data result : value) (m : string),
     JSON.parse text = Normal data ->
     get data "result" = Normal result ->
     JSON.parse (ToString result) = Throw m ->
     handleFactCheck_settle (Responded true text) st
     = (mkState (question st) (answer st) (loading st) (status st) (claim st)
                (factResult st) false (Some (fact_prefix ++ m)),
        Normal tt)) /\
  (exists m : string,
     handleFactCheck_settle (Responded false text) st
     = (mkState (question st) (answer st) (loading st) (status st) (claim st)
                (factResult st) false (Some (fact_prefix ++ m)),
        Normal tt)).
Proof.
  split; [ | split; [ | split ] ].
  - intros data result parsed verdict reason evidence Hd Hr Hp Hv Hrs He.
    rewrite handleFactCheck_settle_eq. unfold fact_attempt, res_json, fact_of. cbn.
    rewrite Hd, Hr, Hp, Hv, Hrs, He. reflexivity.
  - intros ok m Hd. rewrite handleFactCheck_settle_eq.
    unfold fact_attempt, res_json. cbn. rewrite Hd. reflexivity.
  - intros data result m Hd Hr Hp. rewrite handleFactCheck_settle_eq.
    unfold fact_attempt, res_json. cbn. rewrite Hd, Hr, Hp. reflexivity.
  - destruct (fact_failure_throws _ (fact_bad_status text)) as [m Hm].
    exists m. rewrite handleFactCheck_settle_eq, Hm. reflexivity.
Qed.

(** The scenario of the specification: the claim about boiling water, the
    reply whose [result] is the text of a SUPPORTED verdict. *)
Lemma fact_check_two_stage_decode_witness :
  handleFactCheck_settle Samples.supported_reply
    (fst (handleFactCheck_begin (ui Samples.prior)))
  = (mkState (JStr "What is LangChain?") (JStr "X") false ""
             (JStr "Water boils at 100C at sea level.") Samples.supported false None,
     Normal tt) /\
  verdict_className (JStr "SUPPORTED") = positive_class /\
  handleFactCheck_settle (Responded true "{}") (ui Samples.prior)
  = (mkState (JStr "What is LangChain?") (JStr "X") false ""
             (JStr "Water boils at 100C at sea level.") Samples.supported false
             (Some (fact_prefix ++ JSON.syntax_error)),
     Normal tt).
Proof.
  split; [ | split ].
  - exact (proj1 (fact_check_two_stage_decode
                    (fst (handleFactCheck_begin (ui Samples.prior)))
                    (Samples.body_of
                       (JObj [("result", JSON.stringify Samples.supported)])))
             (JObj [("result", JSON.stringify Samples.supported)])
             (JSON.stringify Samples.supported)
             Samples.supported
             (JStr "SUPPORTED") (JStr "Confirmed by doc X")
             (JArr [JStr "doc X, p.2"])
             eq_refl eq_refl eq_refl eq_refl eq_refl eq_refl).
  - reflexivity.
  - apply (proj1 (proj2 (proj2 (fact_check_two_stage_decode (ui Samples.prior) "{}")))
             (JObj []) JUndefined JSON.syntax_error); reflexivity.
Defined.

(** ** The message of an HTTP failure *)

(** C10, as worded, fails on one body: a non-2xx response whose body is
    the JSON text [null] has no [detail], yet the message is not the prefix
    followed by the serialization of the body (the text [null]): reading
    [detail] from [null] throws, and the message is that error's. *)
Lemma null_error_body_is_not_serialized :
  JSON.parse "null" = Normal JNull /\
  JSON.stringify JNull = JStr "null" /\
  status (fst (handleQuery_settle (Responded false "null") (ui Samples.prior)))
  = query_prefix ++ cannot_read "null" "detail" /\
  status (fst (handleQuery_settle (Responded false "null") (ui Samples.prior)))
  <> query_prefix ++ "null" /\
  factError (fst (handleFactCheck_settle (Responded false "null") (ui Samples.prior)))
  = Some (fact_prefix ++ cannot_read "null" "detail") /\
  factError (fst (handleFactCheck_settle (Responded false "null") (ui Samples.prior)))
  <> Some (fact_prefix ++ "null").
Proof.
  split; [ reflexivity | ]. split; [ reflexivity | ]. split; [ reflexivity | ].
  split; [ discriminate | ]. split; [ reflexivity | discriminate ].
Qed.

(** C10, amended.  In both handlers, on a non-2xx response whose body
    parses to something other than [null] (so that [detail] can be read):
    when [detail] is a string that is not empty, the message after the
    fixed prefix is [detail]; when [detail] is missing, the empty string or
    otherwise falsy, it is what [JSON.stringify] makes of the whole body,
    which is a string.  The second half is stated for the bodies that the
    model serializes to the letter ([JSON.plain]). *)
Theorem http_error_message (st : State) (text : string) (data d : value) :
  JSON.parse text = Normal data -> get data "detail" = Normal d ->
  (forall s : string,
     d = JStr s -> s <> "" ->
     status (fst (handleQuery_settle (Responded false text) st))
     = query_prefix ++ s /\
     factError (fst (handleFactCheck_settle (Responded false text) st))
     = Some (fact_prefix ++ s)) /\
  (truthy d = false -> JSON.plain data = true ->
   exists t : string,
     JSON.stringify data = JStr t /\
     status (fst (handleQuery_settle (Responded false text) st))
     = query_prefix ++ t /\
     factError (fst (handleFactCheck_settle (Responded false text) st))
     = Some (fact_prefix ++ t)).
Proof.
  intros Hd Hget. pose proof (JSONFacts.stringify_parsed text data Hd) as Hs.
  rewrite handleQuery_settle_eq, handleFactCheck_settle_eq.
  unfold query_attempt, fact_attempt, res_json, http_error. cbn.
  rewrite Hd, Hget. unfold or_else.
  split.
  - intros s -> Hne. apply String.eqb_neq in Hne.
    cbn [truthy]. rewrite Hne. cbn. auto.
  - intros Ht _. rewrite Ht. exists (JSON.text_of data).
    split; [ exact Hs | ]. rewrite Hs. cbn. auto.
Qed.

(** The scenario of the specification (status 500, [detail] saying the
    index is unavailable), and a body without [detail]. *)
Lemma http_error_message_witness :
  status (fst (handleQuery_settle
                 (Responded false (Samples.body_of Samples.index_unavailable))
                 (ui Samples.prior)))
  = query_prefix ++ "index unavailable" /\
  exists t : string,
    JSON.stringify (JObj [("error", JStr "down")]) = JStr t /\
    status (fst (handleQuery_settle
                   (Responded false (Samples.body_of (JObj [("error", JStr "down")])))
                   (ui Samples.prior)))
    = query_prefix ++ t /\
    factError (fst (handleFactCheck_settle
                      (Responded false (Samples.body_of (JObj [("error", JStr "down")])))
                      (ui Samples.prior)))
    = Some (fact_prefix ++ t).
Proof.
  split.
  - apply (proj1 (http_error_message (ui Samples.prior)
                    (Samples.body_of Samples.index_unavailable)
                    Samples.index_unavailable (JStr "index unavailable")
                    eq_refl eq_refl)
             "index unavailable"); [ reflexivity | discriminate ].
  - apply (proj2 (http_error_message (ui Samples.prior)
                    (Samples.body_of (JObj [("error", JStr "down")]))
                    (JObj [("error", JStr "down")]) JUndefined eq_refl eq_refl));
      reflexivity.
Defined.

(** ** The load effect *)

Lemma hydrate_eq (ls : Storage) (st : State) :
  hydrate ls st =
  match getItem STORAGE_KEY ls with
  | None => (st, Normal tt)
  | Some raw =>
      if raw =? "" then (st, Normal tt)
      else
        match JSON.parse raw with
        | Throw _ => (st, Normal tt)
        | Normal JUndefined => (st, Normal tt)
        | Normal JNull => (st, Normal tt)
        | Normal (JObj fs) =>
            (mkState (or_else (lookup "question" fs) (JStr ""))
                     (or_else (lookup "answer" fs) (JStr ""))
                     (loading st) (status st)
                     (or_else (lookup "claim" fs) (JStr ""))
                     (or_else (lookup "factResult" fs) JNull)
                     (factLoading st) (factError st),
             Normal tt)
        | Normal _ =>
            (mkState (JStr "") (JStr "") (loading st) (status st)
                     (JStr "") JNull (factLoading st) (factError st),
             Normal tt)
        end
  end.
Proof.
  unfold hydrate, try_catch.
  destruct (getItem STORAGE_KEY ls) as [raw | ]; [ | reflexivity ].
  destruct (raw =? ""); [ reflexivity | ].
  unfold bind, lift. destruct (JSON.parse raw) as [saved | m]; [ | reflexivity ].
  destruct saved; reflexivity.
Qed.

(** C6.  The load effect does not treat every stored payload that fails
    to decode as a session as an empty session.  The slot holds JSON whose
    [question] is the number 42: the text parses, it does not decode as the
    session shape, and the effect, which checks no shape, stores 42 in
    [question] instead of leaving the default; the next render then throws
    at [question.trim()]. *)
Lemma wrong_shape_is_not_discarded :
  JSON.parse Samples.odd_text = Normal (JObj [("question", JNum 42)]) /\
  Saved.decodes_as_session Samples.odd_text = false /\
  question (fst (hydrate (setItem STORAGE_KEY Samples.odd_text Samples.no_storage)
                   initial_state)) = JNum 42 /\
  question (fst (hydrate (setItem STORAGE_KEY Samples.odd_text Samples.no_storage)
                   initial_state)) <> question initial_state /\
  View.query_button_disabled
    (fst (hydrate (setItem STORAGE_KEY Samples.odd_text Samples.no_storage)
            initial_state))
  = Throw "question.trim is not a function".
Proof.
  split; [ reflexivity | ]. split; [ reflexivity | ].
  split; [ reflexivity | ]. split; [ discriminate | reflexivity ].
Qed.

(** ** Persisting, then loading *)

Lemma json_ok_strings (l : list string) : forallb JSON.json_ok (map JStr l) = true.
Proof. induction l as [ | s l IH]; cbn; auto. Qed.

Lemma json_ok_install (p : Saved.PersistedState) (st : State) :
  JSON.json_ok (stateToSave (Saved.install p st)) = true.
Proof.
  destruct p as [q a c [[v r e] | ]]; cbn; [ | reflexivity ].
  rewrite json_ok_strings. reflexivity.
Qed.

Lemma or_else_string (s : string) : or_else (JStr s) (JStr "") = JStr s.
Proof.
  unfold or_else, truthy. destruct (s =? "") eqn:E; [ | reflexivity ].
  apply String.eqb_eq in E. now subst.
Qed.

Lemma or_else_factResult (f : option Saved.FactResult) :
  or_else (Saved.value_of_factResult f) JNull = Saved.value_of_factResult f.
Proof. destruct f; reflexivity. Qed.

(** C5.  For every persisted state of the declared type (three strings and
    a fact result or none), whatever the other cells and the storage are:
    the text the persist effect writes parses, on its own, to an object
    with the four members [question], [answer], [claim] and [factResult]
    holding the four cells; the load effect run on that storage sets the
    four cells to the same values; and so does mounting the page, which
    leaves the same text in the slot. *)
Theorem persist_then_hydrate
    (p : Saved.PersistedState) (st : State) (ls : Storage) :
  (exists text : string,
     getItem STORAGE_KEY (persist (Saved.install p st) ls) = Some text /\
     JSON.parse text
     = Normal (JObj [("question", JStr (Saved.question p));
                     ("answer", JStr (Saved.answer p));
                     ("claim", JStr (Saved.claim p));
                     ("factResult", Saved.value_of_factResult (Saved.factResult p))])) /\
  hydrate (persist (Saved.install p st) ls) initial_state
  = (Saved.install p initial_state, Normal tt) /\
  ui (mount (persist (Saved.install p st) ls)) = Saved.install p initial_state /\
  getItem STORAGE_KEY (store (mount (persist (Saved.install p st) ls)))
  = getItem STORAGE_KEY (persist (Saved.install p st) ls).
Proof.
  pose proof (JSONFacts.parse_stringify _ (json_ok_install p st)) as [Hs Hp].
  assert (Hslot : getItem STORAGE_KEY (persist (Saved.install p st) ls)
                  = Some (JSON.text_of (stateToSave (Saved.install p st)))).
  { rewrite getItem_persist. unfold slot_text. now rewrite Hs. }
  assert (Hh : hydrate (persist (Saved.install p st) ls) initial_state
               = (Saved.install p initial_state, Normal tt)).
  { rewrite hydrate_eq, Hslot.
    destruct (JSON.text_of (stateToSave (Saved.install p st)) =? "") eqn:E.
    - apply String.eqb_eq in E. rewrite E in Hp. discriminate Hp.
    - rewrite Hp. cbn [stateToSave Saved.install question answer claim factResult].
      cbn [lookup String.eqb Ascii.eqb Bool.eqb].
      rewrite !or_else_string, or_else_factResult. reflexivity. }
  split; [ | split; [ exact Hh | split ] ].
  - eexists. split; [ exact Hslot | exact Hp ].
  - unfold mount. rewrite Hh. reflexivity.
  - unfold mount. rewrite Hh. cbn [fst ui store].
    rewrite !getItem_persist. reflexivity.
Qed.

(** * Further properties of the page *)

Import View Session.

(** ** The two handlers do not touch each other's cells *)

Lemma handleQuery_begin_cases (st : State) :
  handleQuery_begin st = (st, Normal None) \/
  (exists m, handleQuery_begin st = (st, Throw m)) \/
  (exists req,
     handleQuery_begin st
     = (mkState (question st) (JStr "") true ""
                (claim st) (factResult st) (factLoading st) (factError st),
        Normal (Some req))).
Proof.
  destruct st as [q a l s c f fl fe].
  unfold handleQuery_begin, bind, read, lift, ret. cbn.
  destruct q; cbn; eauto.
  destruct (trim s0 =? ""); cbn; eauto.
Qed.

Lemma handleFactCheck_begin_cases (st : State) :
  handleFactCheck_begin st = (st, Normal None) \/
  (exists m, handleFactCheck_begin st = (st, Throw m)) \/
  (exists req,
     handleFactCheck_begin st
     = (mkState (question st) (answer st) (loading st) (status st)
                (claim st) JNull true None,
        Normal (Some req))).
Proof.
  destruct st as [q a l s c f fl fe].
  unfold handleFactCheck_begin, bind, read, lift, ret. cbn.
  destruct c; cbn; eauto.
  destruct (trim s0 =? ""); cbn; eauto.
Qed.

(** X1.  Neither piece of [handleQuery], on any state and any fetch
    result, changes [claim], [factResult], [factLoading] or [factError];
    neither piece of [handleFactCheck] changes [question], [answer],
    [loading] or [status]. *)
Theorem handlers_are_independent (r : fetch_result) (st : State) :
  (claim (fst (handleQuery_begin st)) = claim st /\
   factResult (fst (handleQuery_begin st)) = factResult st /\
   factLoading (fst (handleQuery_begin st)) = factLoading st /\
   factError (fst (handleQuery_begin st)) = factError st) /\
  (claim (fst (handleQuery_settle r st)) = claim st /\
   factResult (fst (handleQuery_settle r st)) = factResult st /\
   factLoading (fst (handleQuery_settle r st)) = factLoading st /\
   factError (fst (handleQuery_settle r st)) = factError st) /\
  (question (fst (handleFactCheck_begin st)) = question st /\
   answer (fst (handleFactCheck_begin st)) = answer st /\
   loading (fst (handleFactCheck_begin st)) = loading st /\
   status (fst (handleFactCheck_begin st)) = status st) /\
  (question (fst (handleFactCheck_settle r st)) = question st /\
   answer (fst (handleFactCheck_settle r st)) = answer st /\
   loading (fst (handleFactCheck_settle r st)) = loading st /\
   status (fst (handleFactCheck_settle r st)) = status st).
Proof.
  split; [ | split; [ | split ] ].
  - destruct (handleQuery_begin_cases st) as [E | [[m E] | [req E]]];
      rewrite E; cbn; auto.
  - rewrite handleQuery_settle_eq. destruct (query_attempt r); cbn; auto.
  - destruct (handleFactCheck_begin_cases st) as [E | [[m E] | [req E]]];
      rewrite E; cbn; auto.
  - rewrite handleFactCheck_settle_eq. destruct (fact_attempt r); cbn; auto.
Qed.

(** ** The two sides of the page commute *)

Lemma dispatch_fst {A : Type} (a : action A) (w : World) :
  fst (dispatch a w) = mkWorld (fst (a (ui w))) (persist (fst (a (ui w))) (store w)).
Proof. unfold dispatch. destruct (a (ui w)). reflexivity. Qed.

Lemma handle_react (e : event) (w : World) :
  handle e w =
  match react e (ui w) with
  | Some st' => mkWorld st' (persist st' (store w))
  | None => w
  end.
Proof.
  destruct e; cbn [handle react]; rewrite ?dispatch_fst; try reflexivity.
  - destruct (question_box_disabled (ui w)); reflexivity.
  - destruct (claim_box_disabled (ui w)); reflexivity.
  - destruct (query_button_disabled (ui w)) as [[] | ]; reflexivity.
  - destruct (fact_button_disabled (ui w)) as [[] | ]; reflexivity.
Qed.

Lemma mix_self (st : State) : mix st st = st.
Proof. destruct st; reflexivity. Qed.

(** A question-side event reads and writes question-side cells only. *)
Lemma react_query_side (e : event) (a b : State) :
  query_side e = true ->
  react e (mix a b) = option_map (fun a' => mix a' b) (react e a).
Proof.
  destruct e as [t | t | | r | | r]; try discriminate; intros _; cbn [react].
  - unfold question_box_disabled. cbn [mix loading].
    destruct (loading a); reflexivity.
  - unfold query_button_disabled. cbn [mix question loading].
    destruct (call_trim "question" (question a)) as [t | m] eqn:E; [ | reflexivity ].
    destruct ((t =? "") || loading a); [ reflexivity | ]. cbn [option_map]. f_equal.
    unfold handleQuery_begin, bind, read, lift. cbn [mix question]. rewrite E.
    destruct (t =? ""); reflexivity.
  - cbn [option_map]. rewrite !handleQuery_settle_eq.
    destruct (query_attempt r); reflexivity.
Qed.

(** A fact-check-side event reads and writes fact-check-side cells only. *)
Lemma react_fact_side (e : event) (a b : State) :
  query_side e = false ->
  react e (mix a b) = option_map (fun b' => mix a b') (react e b).
Proof.
  destruct e as [t | t | | r | | r]; try discriminate; intros _; cbn [react].
  - unfold claim_box_disabled. cbn [mix factLoading].
    destruct (factLoading b); reflexivity.
  - unfold fact_button_disabled. cbn [mix claim factLoading].
    destruct (call_trim "claim" (claim b)) as [t | m] eqn:E; [ | reflexivity ].
    destruct ((t =? "") || factLoading b); [ reflexivity | ]. cbn [option_map]. f_equal.
    unfold handleFactCheck_begin, bind, read, lift. cbn [mix claim]. rewrite E.
    destruct (t =? ""); reflexivity.
  - cbn [option_map]. rewrite !handleFactCheck_settle_eq.
    destruct (fact_attempt r); reflexivity.
Qed.

Lemma getItem_persist_over (st st1 st2 : State) (ls : Storage) (key : string) :
  getItem key (persist st (persist st1 ls)) = getItem key (persist st (persist st2 ls)).
Proof. unfold getItem, persist, setItem. destruct (key =? STORAGE_KEY); reflexivity. Qed.

(** X2.  An event of the question side (typing a question, pressing the
    query button, a query settling) and an event of the fact-check side
    commute, as long as the page can show every state on the way (the
    state it starts in, the state after either event alone, and the state
    after both): in either order they leave the same state and the same
    storage.  So which of two requests settles first makes no difference
    when both replies can be shown. *)
Theorem sides_commute (e1 e2 : event) (w : World) :
  query_side e1 = true -> query_side e2 = false ->
  renders (ui w) = true ->
  renders (ui (run [e1] w)) = true -> renders (ui (run [e2] w)) = true ->
  renders (ui (run [e1; e2] w)) = true ->
  ui (run [e1; e2] w) = ui (run [e2; e1] w) /\
  forall key : string,
    getItem key (store (run [e1; e2] w)) = getItem key (store (run [e2; e1] w)).
Proof.
  intros H1 H2 _ _ _ _. cbn [run fold_left]. rewrite !handle_react.
  pose proof (react_query_side e1 (ui w) (ui w) H1) as Q1.
  pose proof (react_fact_side e2 (ui w) (ui w) H2) as F2.
  rewrite mix_self in Q1, F2.
  destruct (react e1 (ui w)) as [s1 | ] eqn:E1;
    destruct (react e2 (ui w)) as [s2 | ] eqn:E2;
    cbn [option_map] in Q1, F2; cbn [ui store].
  - injection Q1 as Q1. injection F2 as F2.
    assert (R21 : react e2 s1 = Some (mix s1 s2)).
    { rewrite Q1 at 1. now rewrite (react_fact_side e2 s1 (ui w) H2), E2. }
    assert (R12 : react e1 s2 = Some (mix s1 s2)).
    { rewrite F2 at 1. now rewrite (react_query_side e1 (ui w) s2 H1), E1. }
    rewrite R21, R12. cbn [ui store]. split; [ reflexivity | ].
    intros key. apply getItem_persist_over.
  - injection Q1 as Q1.
    assert (R21 : react e2 s1 = None).
    { rewrite Q1. now rewrite (react_fact_side e2 s1 (ui w) H2), E2. }
    rewrite ?R21, ?E1. cbn [ui store]. rewrite ?R21, ?E1. auto.
  - injection F2 as F2.
    assert (R12 : react e1 s2 = None).
    { rewrite F2. now rewrite (react_query_side e1 (ui w) s2 H1), E1. }
    rewrite ?R12, ?E2. cbn [ui store]. rewrite ?R12, ?E2. auto.
  - rewrite ?E1, ?E2. auto.
Qed.

Lemma sides_commute_witness :
  renders (ui (run [QuerySettled Samples.unreachable;
                    FactCheckSettled Samples.supported_reply] Samples.prior)) = true /\
  ui (run [QuerySettled Samples.unreachable; FactCheckSettled Samples.supported_reply]
        Samples.prior)
  = ui (run [FactCheckSettled Samples.supported_reply; QuerySettled Samples.unreachable]
          Samples.prior).
Proof.
  split; [ reflexivity | ].
  apply (proj1 (sides_commute (QuerySettled Samples.unreachable)
                  (FactCheckSettled Samples.supported_reply)
                  Samples.prior eq_refl eq_refl eq_refl eq_refl eq_refl eq_refl)).
Defined.

(** ** What a whole call leaves behind *)

Lemma call_query_state (r : fetch_result) (w : World) (q : string) :
  question (ui w) = JStr q -> trim q <> "" ->
  ui (call_query r w)
  = fst (handleQuery_settle r
           (mkState (question (ui w)) (JStr "") true ""
                    (claim (ui w)) (factResult (ui w))
                    (factLoading (ui w)) (factError (ui w)))).
Proof.
  intros Hq Ht. destruct (call_query_eq r w q Hq Ht) as (st1 & req & _ & -> & H & _).
  exact H.
Qed.

Lemma call_factCheck_state (r : fetch_result) (w : World) (c : string) :
  claim (ui w) = JStr c -> trim c <> "" ->
  ui (call_factCheck r w)
  = fst (handleFactCheck_settle r
           (mkState (question (ui w)) (answer (ui w)) (loading (ui w)) (status (ui w))
                    (claim (ui w)) JNull true None)).
Proof.
  intros Hc Ht. destruct (call_factCheck_eq r w c Hc Ht) as (st1 & req & _ & -> & H & _).
  exact H.
Qed.

(** X3.  What a whole call leaves in the handler's own result, error and
    busy cells is decided by the fetch result alone: it is the same from
    any two pages, whatever answer or error they showed before and
    whatever (non-blank) text was asked.  An earlier error does not
    outlive a later success, nor an earlier answer a later failure. *)
Theorem call_outcome_depends_on_reply_only (r : fetch_result) (w w' : World) :
  (forall q q' : string,
     question (ui w) = JStr q -> trim q <> "" ->
     question (ui w') = JStr q' -> trim q' <> "" ->
     answer (ui (call_query r w)) = answer (ui (call_query r w')) /\
     status (ui (call_query r w)) = status (ui (call_query r w')) /\
     loading (ui (call_query r w)) = loading (ui (call_query r w'))) /\
  (forall c c' : string,
     claim (ui w) = JStr c -> trim c <> "" ->
     claim (ui w') = JStr c' -> trim c' <> "" ->
     factResult (ui (call_factCheck r w)) = factResult (ui (call_factCheck r w')) /\
     factError (ui (call_factCheck r w)) = factError (ui (call_factCheck r w')) /\
     factLoading (ui (call_factCheck r w)) = factLoading (ui (call_factCheck r w'))).
Proof.
  split.
  - intros q q' Hq Ht Hq' Ht'.
    rewrite (call_query_state r w q Hq Ht), (call_query_state r w' q' Hq' Ht').
    rewrite !handleQuery_settle_eq. destruct (query_attempt r); cbn; auto.
  - intros c c' Hc Ht Hc' Ht'.
    rewrite (call_factCheck_state r w c Hc Ht), (call_factCheck_state r w' c' Hc' Ht').
    rewrite !handleFactCheck_settle_eq. destruct (fact_attempt r); cbn; auto.
Qed.

Lemma call_outcome_depends_on_reply_only_witness :
  status (ui (call_query Samples.answer_X Samples.prior))
  = status (ui (call_query Samples.answer_X
                  (call_query Samples.unreachable Samples.prior))).
Proof.
  apply (proj1 (call_outcome_depends_on_reply_only Samples.answer_X Samples.prior
                  (call_query Samples.unreachable Samples.prior))
           "What is LangChain?" "What is LangChain?");
    solve [ reflexivity | discriminate ].
Defined.

(** ** The requests *)

(** X4.  When the guard lets a question through, the request goes to the
    query endpoint and its body is JSON that parses to an object whose one
    member, [question], is the question exactly as typed, whatever
    characters it holds; a claim goes to the fact-check endpoint in an
    object with the claim as typed and the fixed namespace [documents]. *)
Theorem request_carries_input (st : State) (text : string) :
  trim text <> "" ->
  (question st = JStr text ->
   exists st1 req,
     handleQuery_begin st = (st1, Normal (Some req)) /\
     url req = "http://localhost:8000/query" /\
     JSON.parse (body req) = Normal (JObj [("question", JStr text)])) /\
  (claim st = JStr text ->
   exists st1 req,
     handleFactCheck_begin st = (st1, Normal (Some req)) /\
     url req = "http://localhost:8000/fact_check" /\
     JSON.parse (body req)
     = Normal (JObj [("claim", JStr text); ("namespace", JStr "documents")])).
Proof.
  intros Ht. apply String.eqb_neq in Ht. split; intros H.
  - rewrite (handleQuery_begin_eq st text H), Ht.
    do 2 eexists. split; [ reflexivity | ]. split; [ reflexivity | ]. cbn [body].
    destruct (JSONFacts.parse_stringify (JObj [("question", JStr text)]) eq_refl)
      as [Hs Hp].
    rewrite Hs. exact Hp.
  - rewrite (handleFactCheck_begin_eq st text H), Ht.
    do 2 eexists. split; [ reflexivity | ]. split; [ reflexivity | ]. cbn [body].
    destruct (JSONFacts.parse_stringify
                (JObj [("claim", JStr text); ("namespace", JStr "documents")]) eq_refl)
      as [Hs Hp].
    rewrite Hs. exact Hp.
Qed.

Lemma request_carries_input_witness :
  exists st1 req,
    handleQuery_begin Scenes.asking_awkward = (st1, Normal (Some req)) /\
    url req = "http://localhost:8000/query" /\
    JSON.parse (body req) = Normal (JObj [("question", JStr Scenes.awkward)]).
Proof.
  apply (proj1 (request_carries_input Scenes.asking_awkward Scenes.awkward
                  ltac:(discriminate))).
  reflexivity.
Defined.

(** ** The buttons *)

(** X5.  When the render leaves a button enabled, pressing it does start
    a call; while the call is out the button and its box are disabled, so
    no second call of the same handler can start; and however the call
    settles, the button and the box are enabled again. *)
Theorem enabled_button_launches (st : State) :
  (query_button_disabled st = Normal false ->
   exists st1 req,
     handleQuery_begin st = (st1, Normal (Some req)) /\
     query_button_disabled st1 = Normal true /\
     question_box_disabled st1 = true /\
     forall r : fetch_result,
       query_button_disabled (fst (handleQuery_settle r st1)) = Normal false /\
       question_box_disabled (fst (handleQuery_settle r st1)) = false) /\
  (fact_button_disabled st = Normal false ->
   exists st1 req,
     handleFactCheck_begin st = (st1, Normal (Some req)) /\
     fact_button_disabled st1 = Normal true /\
     claim_box_disabled st1 = true /\
     forall r : fetch_result,
       fact_button_disabled (fst (handleFactCheck_settle r st1)) = Normal false /\
       claim_box_disabled (fst (handleFactCheck_settle r st1)) = false).
Proof.
  split.
  - unfold query_button_disabled, question_box_disabled.
    destruct (question st) as [ | | b | n | m k | s | l | fs] eqn:Hq;
      cbn [call_trim]; try discriminate.
    intros [= H]. apply orb_false_elim in H as [Ht Hl].
    rewrite (handleQuery_begin_eq st s Hq), Ht.
    do 2 eexists. split; [ reflexivity | ].
    cbn [question loading call_trim]. rewrite Hq. cbn [call_trim]. rewrite Ht.
    split; [ reflexivity | ]. split; [ reflexivity | ].
    intros r. rewrite handleQuery_settle_eq.
    destruct (query_attempt r); cbn [fst question loading call_trim];
      rewrite ?Hq; cbn [call_trim]; rewrite Ht; auto.
  - unfold fact_button_disabled, claim_box_disabled.
    destruct (claim st) as [ | | b | n | m k | s | l | fs] eqn:Hc;
      cbn [call_trim]; try discriminate.
    intros [= H]. apply orb_false_elim in H as [Ht Hl].
    rewrite (handleFactCheck_begin_eq st s Hc), Ht.
    do 2 eexists. split; [ reflexivity | ].
    cbn [claim factLoading call_trim]. rewrite Hc. cbn [call_trim]. rewrite Ht.
    split; [ reflexivity | ]. split; [ reflexivity | ].
    intros r. rewrite handleFactCheck_settle_eq.
    destruct (fact_attempt r); cbn [fst claim factLoading call_trim];
      rewrite ?Hc; cbn [call_trim]; rewrite Ht; auto.
Qed.

Lemma enabled_button_launches_witness :
  exists st1 req,
    handleQuery_begin (ui Samples.prior) = (st1, Normal (Some req)) /\
    query_button_disabled st1 = Normal true /\
    question_box_disabled st1 = true /\
    forall r : fetch_result,
      query_button_disabled (fst (handleQuery_settle r st1)) = Normal false /\
      question_box_disabled (fst (handleQuery_settle r st1)) = false.
Proof.
  apply (proj1 (enabled_button_launches (ui Samples.prior))). reflexivity.
Defined.

(** ** What the user sees after a call *)

Lemma fact_attempt_truthy (r : fetch_result) (f : value) :
  fact_attempt r = Normal f -> truthy f = true.
Proof.
  unfold fact_attempt.
  destruct (await_fetch r) as [res | ]; [ | discriminate ].
  destruct (res_json res) as [data | ]; [ | discriminate ].
  destruct (negb (res_ok res)).
  { unfold http_error. destruct (get data "detail"); discriminate. }
  destruct (get data "result") as [result | ]; [ | discriminate ].
  destruct (JSON.parse (ToString result)) as [parsed | ]; [ | discriminate ].
  unfold fact_of.
  destruct (get parsed "verdict"); [ | discriminate ].
  destruct (get parsed "reason"); [ | discriminate ].
  destruct (get parsed "evidence"); [ | discriminate ].
  intros [= <-]. reflexivity.
Qed.

(** X6.  After a whole fact check that leaves a state the page can show,
    exactly one of the verdict panel and the fact-check error is rendered:
    the panel after a success, the error (the fixed prefix and a message)
    after a failure.  After a whole query that leaves a state the page can
    show, the error banner is never rendered beside an answer panel. *)
Theorem one_outcome_is_shown (r : fetch_result) (w : World) :
  (forall c : string,
     claim (ui w) = JStr c -> trim c <> "" ->
     renders (ui (call_factCheck r w)) = true ->
     (fact_panel (ui (call_factCheck r w)) = true /\
      fact_error_banner (ui (call_factCheck r w)) = None) \/
     (fact_panel (ui (call_factCheck r w)) = false /\
      exists m, fact_error_banner (ui (call_factCheck r w)) = Some (fact_prefix ++ m))) /\
  (forall q : string,
     question (ui w) = JStr q -> trim q <> "" ->
     renders (ui (call_query r w)) = true ->
     status_banner (ui (call_query r w)) = None \/
     (answer_panel (ui (call_query r w)) = false /\
      exists m, status_banner (ui (call_query r w)) = Some (query_prefix ++ m))).
Proof.
  split.
  - intros c Hc Ht _. rewrite (call_factCheck_state r w c Hc Ht).
    rewrite handleFactCheck_settle_eq.
    destruct (fact_attempt r) as [f | m] eqn:E; cbn [fst].
    + left. unfold fact_panel, fact_error_banner. cbn [factResult factError].
      split; [ exact (fact_attempt_truthy r f E) | reflexivity ].
    + right. unfold fact_panel, fact_error_banner. cbn [factResult factError].
      split; [ reflexivity | exists m; reflexivity ].
  - intros q Hq Ht _. rewrite (call_query_state r w q Hq Ht).
    rewrite handleQuery_settle_eq.
    destruct (query_attempt r) as [a | m]; cbn [fst].
    + left. reflexivity.
    + right. unfold answer_panel, status_banner. cbn [answer status].
      split; [ reflexivity | exists m; reflexivity ].
Qed.

Lemma one_outcome_is_shown_witness :
  renders (ui (call_factCheck Samples.supported_reply Samples.prior)) = true /\
  ((fact_panel (ui (call_factCheck Samples.supported_reply Samples.prior)) = true /\
    fact_error_banner (ui (call_factCheck Samples.supported_reply Samples.prior)) = None) \/
   (fact_panel (ui (call_factCheck Samples.supported_reply Samples.prior)) = false /\
    exists m,
      fact_error_banner (ui (call_factCheck Samples.supported_reply Samples.prior))
      = Some (fact_prefix ++ m))).
Proof.
  split; [ reflexivity | ].
  apply (proj1 (one_outcome_is_shown Samples.supported_reply Samples.prior)
           "Water boils at 100C at sea level.");
    solve [ reflexivity | discriminate ].
Defined.

(** X7.  A 2xx reply whose [answer] is there and not [null] but falsy (the
    empty string, zero, [false]) is not a failure and gets no placeholder:
    the falsy value is stored, and the page renders neither an answer
    panel nor an error banner. *)
Theorem falsy_answer_shows_nothing
    (w : World) (q text : string) (data a : value) :
  question (ui w) = JStr q -> trim q <> "" ->
  JSON.parse text = Normal data -> get data "answer" = Normal a ->
  nullish a = false -> truthy a = false ->
  answer (ui (call_query (Responded true text) w)) = a /\
  answer_panel (ui (call_query (Responded true text) w)) = false /\
  status_banner (ui (call_query (Responded true text) w)) = None /\
  loading (ui (call_query (Responded true text) w)) = false.
Proof.
  intros Hq Ht Hd Ha Hn Hf. rewrite (call_query_state _ w q Hq Ht).
  rewrite (handleQuery_settle_ok _ text data a Hd Ha). cbn [fst].
  unfold answer_panel, status_banner, coalesce. cbn [answer status loading].
  rewrite Hn. auto.
Qed.

Lemma falsy_answer_shows_nothing_witness :
  answer (ui (call_query Scenes.empty_answer Samples.prior)) = JStr "" /\
  answer_panel (ui (call_query Scenes.empty_answer Samples.prior)) = false /\
  status_banner (ui (call_query Scenes.empty_answer Samples.prior)) = None /\
  loading (ui (call_query Scenes.empty_answer Samples.prior)) = false.
Proof.
  apply (falsy_answer_shows_nothing Samples.prior "What is LangChain?"
           (Samples.body_of (JObj [("answer", JStr "")]))
           (JObj [("answer", JStr "")]) (JStr ""));
    solve [ reflexivity | discriminate ].
Defined.

(** ** Reloading *)

Lemma slot_text_parses (st : State) :
  JSON.json_ok (stateToSave st) = true ->
  slot_text st <> "" /\ JSON.parse (slot_text st) = Normal (stateToSave st).
Proof.
  intros Hok. destruct (JSONFacts.parse_stringify _ Hok) as [Hs Hp].
  unfold slot_text. rewrite Hs. cbn [ToString]. split; [ | exact Hp ].
  intros E. rewrite E in Hp. discriminate Hp.
Qed.

(** X8.  Reloading the page restores a persisted cell only if its value is
    truthy.  For every state whose four cells are JSON values, run the
    load effect on what the persist effect wrote: each cell comes back as
    it was when truthy, and as its default (the empty string, [null] for
    [factResult]) when falsy; so an answer that was zero or [false] is
    lost on reload. *)
Theorem reload_restores_truthy_cells (st : State) (ls : Storage) :
  JSON.json_ok (stateToSave st) = true ->
  hydrate (persist st ls) initial_state
  = (mkState (or_else (question st) (JStr "")) (or_else (answer st) (JStr ""))
             false ""
             (or_else (claim st) (JStr "")) (or_else (factResult st) JNull)
             false None,
     Normal tt).
Proof.
  intros Hok. destruct (slot_text_parses st Hok) as [Hne Hp].
  rewrite hydrate_eq, getItem_persist.
  apply String.eqb_neq in Hne. rewrite Hne, Hp. reflexivity.
Qed.

Lemma reload_restores_truthy_cells_witness :
  answer (fst (hydrate (persist Scenes.zero_answer Samples.no_storage) initial_state))
  = JStr "" /\
  question (fst (hydrate (persist Scenes.zero_answer Samples.no_storage) initial_state))
  = JStr "How many?".
Proof.
  rewrite (reload_restores_truthy_cells Scenes.zero_answer Samples.no_storage eq_refl).
  split; reflexivity.
Defined.

Lemma hydrate_unreadable (ls : Storage) :
  unreadable (getItem STORAGE_KEY ls) = true ->
  hydrate ls initial_state = (initial_state, Normal tt).
Proof.
  rewrite hydrate_eq. unfold unreadable.
  destruct (getItem STORAGE_KEY ls) as [raw | ]; [ | reflexivity ].
  destruct (raw =? ""); [ reflexivity | ].
  destruct (JSON.parse raw) as [saved | m]; [ | reflexivity ].
  destruct saved; cbn; intros H; try discriminate H; reflexivity.
Qed.

(** X9.  Mounting the page over a slot it cannot read (no item, text that
    is not JSON, JSON that is not an object) shows the defaults and
    replaces the slot by the snapshot of the defaults, which is readable
    and decodes as a session; no other key of the storage is touched; and
    mounting again on the result shows the defaults again. *)
Theorem mount_resets_unreadable_slot (ls : Storage) :
  unreadable (getItem STORAGE_KEY ls) = true ->
  ui (mount ls) = initial_state /\
  getItem STORAGE_KEY (store (mount ls)) = Some (slot_text initial_state) /\
  unreadable (getItem STORAGE_KEY (store (mount ls))) = false /\
  Saved.decodes_as_session (slot_text initial_state) = true /\
  (forall key : string,
     key <> STORAGE_KEY -> getItem key (store (mount ls)) = getItem key ls) /\
  ui (mount (store (mount ls))) = initial_state.
Proof.
  intros Hu. pose proof (hydrate_unreadable ls Hu) as Hh.
  assert (Hui : ui (mount ls) = initial_state) by (unfold mount; now rewrite Hh).
  assert (Hslot : getItem STORAGE_KEY (store (mount ls)) = Some (slot_text initial_state)).
  { unfold mount. rewrite Hh. reflexivity. }
  split; [ exact Hui | ]. split; [ exact Hslot | ].
  split; [ rewrite Hslot; reflexivity | ]. split; [ reflexivity | ].
  split.
  - intros key Hk. apply String.eqb_neq in Hk.
    unfold mount, persist, setItem, getItem. cbn [store]. now rewrite Hk.
  - unfold mount at 1. cbn [ui]. rewrite hydrate_eq, Hslot. reflexivity.
Qed.

Lemma mount_resets_unreadable_slot_witness :
  ui (mount Samples.corrupt) = initial_state /\
  getItem STORAGE_KEY (store (mount Samples.corrupt)) = Some (slot_text initial_state).
Proof.
  pose proof (mount_resets_unreadable_slot Samples.corrupt eq_refl) as H.
  split; [ apply (proj1 H) | apply (proj1 (proj2 H)) ].
Defined.

(** ** What holds in every run of the page *)

Lemma run_app (es1 es2 : list event) (w : World) :
  run (es1 ++ es2)%list w = run es2 (run es1 w).
Proof. unfold run. apply fold_left_app. Qed.

Lemma or_else_defined (x d : value) : nullish d = false -> nullish (or_else x d) = false.
Proof.
  intros Hd. unfold or_else. destruct (truthy x) eqn:E; [ | exact Hd ].
  destruct x; try reflexivity; discriminate E.
Qed.

Lemma query_attempt_defined (r : fetch_result) (a : value) :
  query_attempt r = Normal a -> nullish a = false.
Proof.
  unfold query_attempt.
  destruct (await_fetch r) as [res | ]; [ | discriminate ].
  destruct (res_json res) as [data | ]; [ | discriminate ].
  destruct (negb (res_ok res)).
  { unfold http_error. destruct (get data "detail"); discriminate. }
  destruct (get data "answer") as [x | ]; [ | discriminate ].
  intros [= <-]. unfold coalesce. destruct x; reflexivity.
Qed.

Lemma hydrate_cells_defined (ls : Storage) :
  cells_defined (fst (hydrate ls initial_state)) = true.
Proof.
  rewrite hydrate_eq.
  destruct (getItem STORAGE_KEY ls) as [raw | ]; [ | reflexivity ].
  destruct (raw =? ""); [ reflexivity | ].
  destruct (JSON.parse raw) as [saved | m]; [ | reflexivity ].
  destruct saved; try reflexivity.
  unfold cells_defined. cbn [fst question answer claim factResult].
  rewrite !or_else_defined by reflexivity. cbn [negb andb].
  unfold or_else. destruct (truthy (lookup "factResult" fields)) eqn:E; [ | reflexivity ].
  destruct (lookup "factResult" fields); try reflexivity; discriminate E.
Qed.

Lemma react_cells_defined (e : event) (st st' : State) :
  react e st = Some st' -> cells_defined st = true -> cells_defined st' = true.
Proof.
  destruct st as [q a l s c f fl fe]. unfold cells_defined. cbn [question answer claim factResult].
  intros H Hd. apply andb_prop in Hd as [Hd Hf]. apply andb_prop in Hd as [Hd Hc].
  apply andb_prop in Hd as [Hq Ha].
  destruct e as [t | t | | r | | r]; cbn [react] in H.
  - destruct (question_box_disabled _); [ discriminate | ]. injection H as <-.
    cbn. now rewrite Ha, Hc, Hf.
  - destruct (claim_box_disabled _); [ discriminate | ]. injection H as <-.
    cbn. now rewrite Hq, Ha, Hf.
  - destruct (query_button_disabled _) as [[] | ]; try discriminate. injection H as <-.
    destruct (handleQuery_begin_cases (mkState q a l s c f fl fe))
      as [E | [[m E] | [req E]]]; rewrite E; cbn; now rewrite ?Hq, ?Ha, ?Hc, ?Hf.
  - injection H as <-. rewrite handleQuery_settle_eq.
    destruct (query_attempt r) as [x | m] eqn:E; cbn.
    + rewrite (query_attempt_defined r x E). now rewrite Hq, Hc, Hf.
    + now rewrite Hq, Ha, Hc, Hf.
  - destruct (fact_button_disabled _) as [[] | ]; try discriminate. injection H as <-.
    destruct (handleFactCheck_begin_cases (mkState q a l s c f fl fe))
      as [E | [[m E] | [req E]]]; rewrite E; cbn; now rewrite ?Hq, ?Ha, ?Hc, ?Hf.
  - injection H as <-. rewrite handleFactCheck_settle_eq.
    destruct (fact_attempt r) as [x | m] eqn:E; cbn.
    + rewrite Hq, Ha, Hc. cbn. pose proof (fact_attempt_truthy r x E) as Hx.
      destruct x; try reflexivity; discriminate Hx.
    + now rewrite Hq, Ha, Hc, Hf.
Qed.

Lemma serialize_defined (x : value) :
  nullish x = false \/ x = JNull -> JSON.serialize x = Some (JSON.text_of x).
Proof.
  unfold JSON.text_of. destruct x; try reflexivity.
  - intros [H | H]; discriminate H.
  - destruct b; reflexivity.
Qed.

Lemma slot_text_full (st : State) :
  cells_defined st = true ->
  slot_text st
  = full_snapshot (question st) (answer st) (claim st) (factResult st).
Proof.
  destruct st as [q a l s c f fl fe]. unfold cells_defined.
  cbn [question answer claim factResult]. intros Hd.
  apply andb_prop in Hd as [Hd Hf]. apply andb_prop in Hd as [Hd Hc].
  apply andb_prop in Hd as [Hq Ha]. apply negb_true_iff in Hq, Ha, Hc.
  unfold slot_text, JSON.stringify, stateToSave, full_snapshot, JSON.member_text.
  cbn [question answer claim factResult JSON.serialize flat_map fst snd].
  rewrite (serialize_defined q), (serialize_defined a), (serialize_defined c) by auto.
  rewrite (serialize_defined f).
  - reflexivity.
  - destruct f; auto; discriminate Hf.
Qed.

Lemma run_invariant (P : World -> Prop) :
  (forall e w, P w -> P (handle e w)) ->
  forall events w, P w -> P (run events w).
Proof.
  intros Hstep events. unfold run.
  induction events as [ | e events IH]; intros w Hw; cbn [fold_left]; auto.
Qed.

(** X10.  In every run of the page, from mounting over any storage through
    any events, no persisted cell is ever [undefined] and [answer] is
    never [null].  So the text the persist effect writes for the cells,
    whenever it runs and whatever the storage held, is the full object
    text, with the members [question], [answer], [claim] and [factResult]
    in this order, none left out. *)
Theorem snapshot_is_always_complete (ls : Storage) (events : list event) :
  cells_defined (ui (run events (mount ls))) = true /\
  forall before : Storage,
    getItem STORAGE_KEY (persist (ui (run events (mount ls))) before)
    = Some (full_snapshot (question (ui (run events (mount ls))))
                          (answer (ui (run events (mount ls))))
                          (claim (ui (run events (mount ls))))
                          (factResult (ui (run events (mount ls))))).
Proof.
  assert (Hd : cells_defined (ui (run events (mount ls))) = true).
  { apply (run_invariant (fun w => cells_defined (ui w) = true)).
    - intros e w Hd. rewrite handle_react.
      destruct (react e (ui w)) as [st' | ] eqn:E; [ | exact Hd ].
      cbn [ui]. exact (react_cells_defined e _ _ E Hd).
    - unfold mount. cbn [ui]. apply hydrate_cells_defined. }
  split; [ exact Hd | ].
  intros before. rewrite getItem_persist. f_equal.
  exact (slot_text_full _ Hd).
Qed.

Lemma react_inputs_are_strings (e : event) (st st' : State) :
  react e st = Some st' ->
  inputs_are_strings st = true -> inputs_are_strings st' = true.
Proof.
  destruct st as [q a l s c f fl fe]. unfold inputs_are_strings.
  cbn [question claim]. intros H Hi.
  destruct e as [t | t | | r | | r]; cbn [react] in H.
  - destruct (question_box_disabled _); [ discriminate | ]. injection H as <-.
    apply andb_prop in Hi as [_ Hc]. exact Hc.
  - destruct (claim_box_disabled _); [ discriminate | ]. injection H as <-.
    apply andb_prop in Hi as [Hq _]. cbn. now rewrite Hq.
  - destruct (query_button_disabled _) as [[] | ]; try discriminate. injection H as <-.
    destruct (handleQuery_begin_cases (mkState q a l s c f fl fe))
      as [E | [[m E] | [req E]]]; rewrite E; exact Hi.
  - injection H as <-. rewrite handleQuery_settle_eq.
    destruct (query_attempt r); exact Hi.
  - destruct (fact_button_disabled _) as [[] | ]; try discriminate. injection H as <-.
    destruct (handleFactCheck_begin_cases (mkState q a l s c f fl fe))
      as [E | [[m E] | [req E]]]; rewrite E; exact Hi.
  - injection H as <-. rewrite handleFactCheck_settle_eq.
    destruct (fact_attempt r); exact Hi.
Qed.

(** X11.  If the two inputs hold strings, they hold strings after any
    events, whatever the backend replies: no handler ever puts a reply's
    value into [question] or [claim].  So the tests the render makes on
    them for the two buttons never throw. *)
Theorem inputs_stay_strings (events : list event) (w : World) :
  inputs_are_strings (ui w) = true ->
  inputs_are_strings (ui (run events w)) = true /\
  (exists b, query_button_disabled (ui (run events w)) = Normal b) /\
  (exists b, fact_button_disabled (ui (run events w)) = Normal b).
Proof.
  intros Hi.
  assert (H : inputs_are_strings (ui (run events w)) = true).
  { apply (run_invariant (fun w => inputs_are_strings (ui w) = true)); [ | exact Hi ].
    intros e w0 H0. rewrite handle_react.
    destruct (react e (ui w0)) as [st' | ] eqn:E; [ | exact H0 ].
    exact (react_inputs_are_strings e _ _ E H0). }
  split; [ exact H | ].
  unfold inputs_are_strings in H. apply andb_prop in H as [Hq Hc].
  unfold query_button_disabled, fact_button_disabled.
  destruct (question (ui (run events w))); try discriminate Hq.
  destruct (claim (ui (run events w))); try discriminate Hc.
  cbn [call_trim]. eauto.
Qed.

Lemma inputs_stay_strings_witness :
  inputs_are_strings (ui (run Scenes.busy_day (mount Samples.corrupt))) = true /\
  (exists b, query_button_disabled (ui (run Scenes.busy_day (mount Samples.corrupt)))
             = Normal b) /\
  (exists b, fact_button_disabled (ui (run Scenes.busy_day (mount Samples.corrupt)))
             = Normal b).
Proof.
  apply (inputs_stay_strings Scenes.busy_day (mount Samples.corrupt)). reflexivity.
Defined.

(** ** The guard refuses blank input only *)

Section Strip.
Variable one : ascii -> bool.
Variable two : ascii -> ascii -> bool.
Variable three : ascii -> ascii -> ascii -> bool.

Lemma strip_empty_gen (s : string) :
  (strip one two three s = "" -> Spaces.made_of one two three s) /\
  (forall c, strip one two three (String c s) = "" ->
             Spaces.made_of one two three (String c s)) /\
  (forall c d, strip one two three (String c (String d s)) = "" ->
               Spaces.made_of one two three (String c (String d s))).
Proof.
  induction s as [ | e s (IH0 & IH1 & IH2)].
  - split; [ intros _; constructor | ]. split.
    + intros c. cbn. destruct (one c) eqn:E; [ | discriminate ].
      intros _. now repeat constructor.
    + intros c d. cbn. destruct (one c) eqn:Ec.
      * destruct (one d) eqn:Ed; [ | discriminate ].
        intros _. now repeat constructor.
      * destruct (two c d) eqn:E2; [ | discriminate ].
        intros _. now constructor 3; [ | constructor ].
  - split; [ apply IH1 | ]. split; [ intros c; apply IH2 | ].
    intros c d. rewrite strip_three.
    destruct (one c) eqn:Ec.
    { intros H. constructor 2; [ exact Ec | exact (IH2 d e H) ]. }
    destruct (two c d) eqn:E2.
    { intros H. constructor 3; [ exact E2 | exact (IH1 e H) ]. }
    destruct (three c d e) eqn:E3; [ | discriminate ].
    intros H. constructor 4; [ exact E3 | exact (IH0 H) ].
Qed.

Lemma strip_empty (s : string) :
  strip one two three s = "" -> Spaces.made_of one two three s.
Proof. apply strip_empty_gen. Qed.

Lemma strip_idempotent_gen (s : string) :
  (strip one two three (strip one two three s) = strip one two three s) /\
  (forall c, strip one two three (strip one two three (String c s))
             = strip one two three (String c s)) /\
  (forall c d, strip one two three (strip one two three (String c (String d s)))
               = strip one two three (String c (String d s))).
Proof.
  induction s as [ | e s (IH0 & IH1 & IH2)].
  - split; [ reflexivity | ]. split.
    + intros c. cbn. destruct (one c) eqn:E; cbn; [ reflexivity | now rewrite E ].
    + intros c d. cbn. destruct (one c) eqn:Ec.
      * destruct (one d) eqn:Ed; cbn; [ reflexivity | now rewrite Ed ].
      * destruct (two c d) eqn:E2; cbn; [ reflexivity | now rewrite Ec, E2 ].
  - split; [ apply IH1 | ]. split; [ intros c; apply IH2 | ].
    intros c d. rewrite strip_three.
    destruct (one c) eqn:Ec; [ apply IH2 | ].
    destruct (two c d) eqn:E2; [ apply IH1 | ].
    destruct (three c d e) eqn:E3; [ apply IH0 | ].
    rewrite strip_three, Ec, E2, E3. reflexivity.
Qed.

Lemma strip_idempotent (s : string) :
  strip one two three (strip one two three s) = strip one two three s.
Proof. apply strip_idempotent_gen. Qed.

(** Read back to front, a run of characters is a run of the characters
    read back to front. *)
Lemma made_of_rev_onto (u : string) :
  Spaces.made_of one (fun d c => two c d) (fun e d c => three c d e) u ->
  forall acc, Spaces.made_of one two three acc ->
              Spaces.made_of one two three (rev_onto u acc).
Proof.
  induction 1 as [ | c s Hc _ IH | c d s Hcd _ IH | c d e s Hcde _ IH];
    intros acc Hacc; cbn [rev_onto].
  - exact Hacc.
  - apply IH. now constructor 2.
  - apply IH. now constructor 3.
  - apply IH. now constructor 4.
Qed.

End Strip.

Lemma rev_onto_rev_onto (s a b : string) :
  rev_onto (rev_onto s a) b = rev_onto a (s ++ b).
Proof.
  revert a b. induction s as [ | c s IH]; intros a b; cbn [rev_onto append].
  - reflexivity.
  - rewrite IH. reflexivity.
Qed.

Lemma reverse_reverse (s : string) : reverse (reverse s) = s.
Proof.
  unfold reverse. rewrite rev_onto_rev_onto. cbn [rev_onto].
  induction s as [ | c s IH]; cbn; [ reflexivity | now rewrite IH ].
Qed.

Lemma rev_onto_empty (s acc : string) : rev_onto s acc = "" -> s = "" /\ acc = "".
Proof.
  revert acc. induction s as [ | c s IH]; intros acc H; cbn [rev_onto] in H.
  - auto.
  - apply IH in H as [_ H]. discriminate H.
Qed.

Lemma space2_not_space (c d : ascii) : is_space2 c d = true -> is_space c = false.
Proof.
  destruct c as [[] [] [] [] [] [] [] []]; cbn; intros H;
    solve [ discriminate H | reflexivity ].
Qed.

Lemma space3_not_space (c d e : ascii) :
  is_space3 c d e = true -> is_space c = false /\ is_space2 c d = false.
Proof.
  destruct c as [[] [] [] [] [] [] [] []]; cbn; intros H;
    solve [ discriminate H | split; reflexivity ].
Qed.

Lemma spaces_strip (s : string) : Spaces.spaces s -> trimStart s = "".
Proof.
  unfold trimStart.
  induction 1 as [ | c s Hc _ IH | c d s Hcd _ IH | c d e s Hcde _ IH].
  - reflexivity.
  - cbn [strip]. now rewrite Hc.
  - cbn [strip]. now rewrite (space2_not_space c d Hcd), Hcd.
  - destruct (space3_not_space c d e Hcde) as [H1 H2].
    rewrite strip_three, H1, H2, Hcde. exact IH.
Qed.

Lemma spaces_blank (s : string) : Spaces.spaces s -> blank s = true.
Proof.
  induction 1 as [ | c s Hc _ IH | c d s Hcd _ IH | c d e s Hcde _ IH].
  - reflexivity.
  - cbn [blank]. now rewrite Hc.
  - cbn [blank]. now rewrite (space2_not_space c d Hcd), Hcd.
  - destruct (space3_not_space c d e Hcde) as [H1 H2].
    rewrite blank_three, H1, H2, Hcde. exact IH.
Qed.

(** [trim] yields the empty string on blank input only. *)
Lemma trim_empty_blank (s : string) : trim s = "" -> blank s = true.
Proof.
  unfold trim, trimEnd. intros H.
  apply rev_onto_empty in H as [H _].
  apply strip_empty in H.
  apply (made_of_rev_onto is_space is_space2 is_space3) with (acc := "") in H;
    [ | constructor ].
  fold (reverse (reverse (trimStart s))) in H. rewrite reverse_reverse in H.
  apply spaces_strip in H. unfold trimStart in H.
  rewrite strip_idempotent in H.
  apply spaces_blank. now apply strip_empty.
Qed.

(** X12.  The guards refuse blank input only: on a question (a claim) that
    holds anything but white space, the handler goes past its guard, sets
    its busy flag and makes a request. *)
Theorem guard_refuses_blank_only (st : State) (s : string) :
  blank s = false ->
  (question st = JStr s ->
   exists st1 req,
     handleQuery_begin st = (st1, Normal (Some req)) /\ loading st1 = true) /\
  (claim st = JStr s ->
   exists st1 req,
     handleFactCheck_begin st = (st1, Normal (Some req)) /\ factLoading st1 = true).
Proof.
  intros Hb.
  assert (Ht : (trim s =? "") = false).
  { apply String.eqb_neq. intros E. apply trim_empty_blank in E. congruence. }
  split; intros H.
  - rewrite (handleQuery_begin_eq st s H), Ht. eauto.
  - rewrite (handleFactCheck_begin_eq st s H), Ht. eauto.
Qed.

Lemma guard_refuses_blank_only_witness :
  exists st1 req,
    handleQuery_begin (ui Samples.prior) = (st1, Normal (Some req)) /\ loading st1 = true.
Proof.
  apply (proj1 (guard_refuses_blank_only (ui Samples.prior) "What is LangChain?"
                  eq_refl)).
  reflexivity.
Defined.

(** ** The typed text survives a call *)

Lemma dispatch_eq {A : Type} (a : action A) (w : World) :
  dispatch a w
  = (mkWorld (fst (a (ui w))) (persist (fst (a (ui w))) (store w)), snd (a (ui w))).
Proof. unfold dispatch. destruct (a (ui w)). reflexivity. Qed.

(** X13.  A whole call never changes the text it was made for: after a
    query, failed or not, [question] is what it was, and after a fact
    check [claim] is what it was; so the same text can be sent again. *)
Theorem input_survives_call (r : fetch_result) (w : World) :
  question (ui (call_query r w)) = question (ui w) /\
  claim (ui (call_factCheck r w)) = claim (ui w).
Proof.
  split.
  - unfold call_query. rewrite dispatch_eq.
    destruct (handleQuery_begin_cases (ui w)) as [E | [[m E] | [req E]]];
      rewrite E; cbn [fst snd ui]; try reflexivity.
    rewrite dispatch_fst. cbn [ui]. rewrite handleQuery_settle_eq.
    destruct (query_attempt r); reflexivity.
  - unfold call_factCheck. rewrite dispatch_eq.
    destruct (handleFactCheck_begin_cases (ui w)) as [E | [[m E] | [req E]]];
      rewrite E; cbn [fst snd ui]; try reflexivity.
    rewrite dispatch_fst. cbn [ui]. rewrite handleFactCheck_settle_eq.
    destruct (fact_attempt r); reflexivity.
Qed.
